(** * The protected tRPC router of api-beer

  A shallow embedding of [src/server/trpc/routers/protected.ts]: the
  procedures [projectList] ... [apiCreate], the input schemas they
  declare with zod, and the Prisma store they query, followed by the
  properties of the authorization model that the specification states. *)

From Stdlib Require Import String Ascii List Bool Arith ZArith Lia.
Import ListNotations.
Open Scope string_scope.

(** ** JavaScript values *)

(** A JavaScript string is a sequence of code units; the embedding uses
  [string], whose units are 8 bits wide.  The router only ever inspects
  the length of a string, compares strings, and lower-cases enumeration
  values, which are ASCII. *)
Module JS.

(** One code unit of [String.prototype.toLowerCase], on ASCII. *)
Definition toLowerCase_unit (c : ascii) : ascii :=
  let n := nat_of_ascii c in
  if ((65 <=? n) && (n <=? 90))%nat then ascii_of_nat (n + 32) else c.

Fixpoint toLowerCase (s : string) : string :=
  match s with
  | EmptyString => EmptyString
  | String c rest => String (toLowerCase_unit c) (toLowerCase rest)
  end.

(** [Array.prototype.includes] on an array of strings. *)
Definition includes (array : list string) (v : string) : bool :=
  existsb (String.eqb v) array.

End JS.

(** ** The enumerations of the Prisma client *)

(** Modelled from the spec: the generated [$Enums] object of the Prisma
  schema, which is not among the sources.  The router names
  [Role.Owner], [Role.Maintainer], ['PUBLIC'] and ['PRIVATE']; the
  specification gives the third role, [Member].  At run time every
  member of such an enumeration is the string of its name. *)
Module Enums.

Module Role.
Definition Owner : string := "Owner".
Definition Maintainer : string := "Maintainer".
Definition Member : string := "Member".
Definition values : list string := [Owner; Maintainer; Member].
End Role.

Module ProjectVisibility.
Definition PUBLIC : string := "PUBLIC".
Definition PRIVATE : string := "PRIVATE".
Definition values : list string := [PUBLIC; PRIVATE].
End ProjectVisibility.

End Enums.

(** ** Rows of the store *)

Module User.
(** [ctx.session.data.user]: the authenticated caller. *)
Record t := { id : string }.
End User.

Module Team.
Record t := { id : string; name : string; description : option string }.
End Team.

Module TeamMember.
Record t := { userId : string; teamId : string; role : string }.
End TeamMember.

Module Project.
Record t := {
  id : string;
  name : string;
  description : string;
  teamId : string;
  visibility : string
}.

(** [{ ...project, visibility: v }] *)
Definition with_visibility (p : t) (v : string) : t :=
  {| id := id p; name := name p; description := description p;
     teamId := teamId p; visibility := v |}.
End Project.

Module ProjectMember.
Record t := { userId : string; projectId : string; role : string }.
End ProjectMember.

(** [z.object({})] keeps no key of the value it parses: the four payload
  fields of an API are always the empty object. *)
Inductive EmptyObject := JsEmptyObject.

Module Api.
Record t := {
  id : string;
  name : option string;
  description : option string;
  endpoint : string;
  method : string;
  params : EmptyObject;
  body : EmptyObject;
  headers : EmptyObject;
  authorization : EmptyObject;
  preRequestScript : string;
  postResponseScript : string;
  tags : list string;
  versions : list string;
  order : Z;
  status : option string;
  projectId : string
}.
End Api.

(** The tables, each in the order in which the store returns its rows. *)
Module Store.
Record t := {
  teams : list Team.t;
  teamMembers : list TeamMember.t;
  projects : list Project.t;
  projectMembers : list ProjectMember.t;
  apis : list Api.t
}.

Definition empty : t :=
  {| teams := []; teamMembers := []; projects := [];
     projectMembers := []; apis := [] |}.
End Store.

(** ** Outcomes of a procedure *)

Inductive Exn :=
| Error (message : string)
  (** [throw new Error(message)] *)
| ValidationError (issues : list string).
  (** the input did not parse against the schema; the failing paths *)

Inductive Outcome (A : Type) :=
| Return (a : A)
| Throw (e : Exn).
Arguments Return {A} a.
Arguments Throw {A} e.

(** The generic "not found" that the specification calls
  [NotFoundOrDenied]: every procedure raises it with this one message,
  also for a team. *)
Definition NotFoundOrDenied : Exn := Error "Project not found".

(** ** Input schemas *)

Module z.

Definition check := string -> bool.

Definition min (n : nat) : check := fun v => (n <=? String.length v)%nat.
Definition max (n : nat) : check := fun v => (String.length v <=? n)%nat.

(** [z.string()] followed by its checks. *)
Definition str (checks : list check) (v : string) : bool :=
  forallb (fun c => c v) checks.

(** [z.enum(values)] and [z.nativeEnum(E)]. *)
Definition enum (values : list string) (v : string) : bool :=
  JS.includes values v.

Definition array {A} (item : A -> bool) (v : list A) : bool :=
  forallb item v.

Definition optional {A} (schema : A -> bool) (v : option A) : bool :=
  match v with
  | None => true
  | Some x => schema x
  end.

(** A key of [z.object]: the issue it reports, if any. *)
Definition key (path : string) (ok : bool) : list string :=
  if ok then [] else [path].

(** [z.object({...})]: the issues of all its keys. *)
Definition object (keys : list (list string)) : list string :=
  concat keys.

End z.

Module ProjectList.
Record input := {
  name : option string;
  teamId : string;
  visibility : option string
}.
Definition schema (i : input) : list string :=
  z.object [
    z.key "name" (z.optional (z.str []) (name i));
    z.key "teamId" (z.str [] (teamId i));
    z.key "visibility"
      (z.optional (z.enum ["PUBLIC"; "PRIVATE"]) (visibility i))
  ].
End ProjectList.

Module ProjectCreate.
Record input := {
  name : string;
  description : string;
  teamId : string;
  visibility : string
}.
Definition schema (i : input) : list string :=
  z.object [
    z.key "name" (z.str [z.min 3; z.max 50] (name i));
    z.key "description" (z.str [z.min 3; z.max 255] (description i));
    z.key "teamId" (z.str [] (teamId i));
    z.key "visibility"
      (z.enum Enums.ProjectVisibility.values (visibility i))
  ].
End ProjectCreate.

Module ProjectShow.
Record input := { id : string }.
Definition schema (i : input) : list string :=
  z.object [ z.key "id" (z.str [] (id i)) ].
End ProjectShow.

Module ProjectUpdate.
Record input := {
  id : string;
  name : string;
  description : string;
  visibility : string
}.
Definition schema (i : input) : list string :=
  z.object [
    z.key "id" (z.str [] (id i));
    z.key "name" (z.str [z.min 3; z.max 50] (name i));
    z.key "description" (z.str [z.min 3; z.max 255] (description i));
    z.key "visibility"
      (z.enum Enums.ProjectVisibility.values (visibility i))
  ].
End ProjectUpdate.

Module ProjectDelete.
Record input := { id : string }.
Definition schema (i : input) : list string :=
  z.object [ z.key "id" (z.str [] (id i)) ].
End ProjectDelete.

Module TeamCreate.
Record input := { name : string; description : option string }.
Definition schema (i : input) : list string :=
  z.object [
    z.key "name" (z.str [z.min 3; z.max 50] (name i));
    z.key "description" (z.optional (z.str []) (description i))
  ].
End TeamCreate.

Module TeamShow.
Record input := { id : string }.
Definition schema (i : input) : list string :=
  z.object [ z.key "id" (z.str [] (id i)) ].
End TeamShow.

Module ApiList.
Record input := { name : option string; projectId : string }.
Definition schema (i : input) : list string :=
  z.object [
    z.key "name" (z.optional (z.str []) (name i));
    z.key "projectId" (z.str [z.min 1] (projectId i))
  ].
End ApiList.

Module ApiCreate.
Record input := {
  name : option string;
  description : option string;
  endpoint : string;
  method : string;
  params : EmptyObject;
  body : EmptyObject;
  headers : EmptyObject;
  authorization : EmptyObject;
  preRequestScript : string;
  postResponseScript : string;
  tags : list string;
  versions : list string;
  order : Z;
  status : option string;
  projectId : string
}.

(** [ApiMethod] and [ApiStatus] are the members of the two enumerations
    of the schema that the router passes to [z.nativeEnum]. *)
Definition schema (ApiMethod ApiStatus : list string) (i : input)
  : list string :=
  z.object [
    z.key "name" (z.optional (z.str [z.min 3; z.max 50]) (name i));
    z.key "description"
      (z.optional (z.str [z.min 3; z.max 255]) (description i));
    z.key "endpoint" (z.str [] (endpoint i));
    z.key "method" (z.enum ApiMethod (method i));
    z.key "preRequestScript" (z.str [] (preRequestScript i));
    z.key "postResponseScript" (z.str [] (postResponseScript i));
    z.key "tags" (z.array (z.str []) (tags i));
    z.key "versions" (z.array (z.str []) (versions i));
    z.key "status" (z.optional (z.enum ApiStatus) (status i));
    z.key "projectId" (z.str [] (projectId i))
  ].
End ApiCreate.

(** ** The store *)

(** Conditions of a [where] clause.  A condition whose value is
    [undefined] constrains nothing. *)
Module Where.

Fixpoint substring (needle hay : string) : bool :=
  String.prefix needle hay ||
  match hay with
  | EmptyString => false
  | String _ rest => substring needle rest
  end.

(** [{ field: v }] *)
Definition equals (v : option string) (x : string) : bool :=
  match v with
  | None => true
  | Some v => x =? v
  end.

(** [{ field: { contains: v } }]; a null field contains nothing. *)
Definition contains (v : option string) (x : option string) : bool :=
  match v, x with
  | None, _ => true
  | Some _, None => false
  | Some v, Some x => substring v x
  end.

End Where.

(** Modelled from the spec: the persistent store, reached in the router
    through the Prisma client, which is not among the sources.  The
    specification gives its contract: [find], [findOne] that yields the
    entity or nothing, [create], and [update] and [delete] that report
    what they matched, nothing when the filter matches no row.  A nested
    [members: { create }] is written in the same step as its entity.  A
    [delete] removes the matched row of its own table and no other row:
    memberships are changed by membership operations alone, and the
    router has none.  [newId] is the default of an [id] column: the
    identifier given to a new row, from those in use in its table. *)
Module prisma.

(** The row an [update] or a [delete] acts on is the first that matches. *)
Fixpoint replace_first {A} (where_ : A -> bool) (data : A -> A)
  (rows : list A) : list A :=
  match rows with
  | [] => []
  | row :: rest =>
      if where_ row then data row :: rest
      else row :: replace_first where_ data rest
  end.

Fixpoint remove_first {A} (where_ : A -> bool) (rows : list A) : list A :=
  match rows with
  | [] => []
  | row :: rest =>
      if where_ row then rest else row :: remove_first where_ rest
  end.

Module project.

(** [members: { some: cond }] *)
Definition members_some (s : Store.t) (cond : ProjectMember.t -> bool)
  (p : Project.t) : bool :=
  existsb (fun m => (ProjectMember.projectId m =? Project.id p) && cond m)
    (Store.projectMembers s).

Definition findMany (where_ : Project.t -> bool) (s : Store.t)
  : list Project.t :=
  filter where_ (Store.projects s).

Definition findFirst (where_ : Project.t -> bool) (s : Store.t)
  : option Project.t :=
  find where_ (Store.projects s).

Definition create (newId : list string -> string)
  (name description teamId visibility : string)
  (members_userId members_role : string) (s : Store.t)
  : Project.t * Store.t :=
  let project :=
    {| Project.id := newId (map Project.id (Store.projects s));
       Project.name := name;
       Project.description := description;
       Project.teamId := teamId;
       Project.visibility := visibility |} in
  let member :=
    {| ProjectMember.userId := members_userId;
       ProjectMember.projectId := Project.id project;
       ProjectMember.role := members_role |} in
  (project,
   {| Store.teams := Store.teams s;
      Store.teamMembers := Store.teamMembers s;
      Store.projects := Store.projects s ++ [project];
      Store.projectMembers := Store.projectMembers s ++ [member];
      Store.apis := Store.apis s |}).

Definition update (where_ : Project.t -> bool)
  (name description visibility : string) (s : Store.t)
  : option Project.t * Store.t :=
  let data (p : Project.t) :=
    {| Project.id := Project.id p;
       Project.name := name;
       Project.description := description;
       Project.teamId := Project.teamId p;
       Project.visibility := visibility |} in
  match find where_ (Store.projects s) with
  | None => (None, s)
  | Some p =>
      (Some (data p),
       {| Store.teams := Store.teams s;
          Store.teamMembers := Store.teamMembers s;
          Store.projects := replace_first where_ data (Store.projects s);
          Store.projectMembers := Store.projectMembers s;
          Store.apis := Store.apis s |})
  end.

Definition delete (where_ : Project.t -> bool) (s : Store.t)
  : option Project.t * Store.t :=
  match find where_ (Store.projects s) with
  | None => (None, s)
  | Some p =>
      (Some p,
       {| Store.teams := Store.teams s;
          Store.teamMembers := Store.teamMembers s;
          Store.projects := remove_first where_ (Store.projects s);
          Store.projectMembers := Store.projectMembers s;
          Store.apis := Store.apis s |})
  end.

End project.

Module projectMember.

Definition findFirst (where_ : ProjectMember.t -> bool) (s : Store.t)
  : option ProjectMember.t :=
  find where_ (Store.projectMembers s).

End projectMember.

Module team.

Definition members_some (s : Store.t) (cond : TeamMember.t -> bool)
  (t : Team.t) : bool :=
  existsb (fun m => (TeamMember.teamId m =? Team.id t) && cond m)
    (Store.teamMembers s).

Definition findMany (where_ : Team.t -> bool) (s : Store.t) : list Team.t :=
  filter where_ (Store.teams s).

Definition findFirst (where_ : Team.t -> bool) (s : Store.t)
  : option Team.t :=
  find where_ (Store.teams s).

Definition create (newId : list string -> string)
  (name : string) (description : option string)
  (members_userId members_role : string) (s : Store.t)
  : Team.t * Store.t :=
  let team :=
    {| Team.id := newId (map Team.id (Store.teams s));
       Team.name := name;
       Team.description := description |} in
  let member :=
    {| TeamMember.userId := members_userId;
       TeamMember.teamId := Team.id team;
       TeamMember.role := members_role |} in
  (team,
   {| Store.teams := Store.teams s ++ [team];
      Store.teamMembers := Store.teamMembers s ++ [member];
      Store.projects := Store.projects s;
      Store.projectMembers := Store.projectMembers s;
      Store.apis := Store.apis s |}).

End team.

Module api.

Definition findMany (where_ : Api.t -> bool) (s : Store.t) : list Api.t :=
  filter where_ (Store.apis s).

(** [data: { ...input }] *)
Definition create (newId : list string -> string) (input : ApiCreate.input)
  (s : Store.t) : Api.t * Store.t :=
  let api :=
    {| Api.id := newId (map Api.id (Store.apis s));
       Api.name := ApiCreate.name input;
       Api.description := ApiCreate.description input;
       Api.endpoint := ApiCreate.endpoint input;
       Api.method := ApiCreate.method input;
       Api.params := ApiCreate.params input;
       Api.body := ApiCreate.body input;
       Api.headers := ApiCreate.headers input;
       Api.authorization := ApiCreate.authorization input;
       Api.preRequestScript := ApiCreate.preRequestScript input;
       Api.postResponseScript := ApiCreate.postResponseScript input;
       Api.tags := ApiCreate.tags input;
       Api.versions := ApiCreate.versions input;
       Api.order := ApiCreate.order input;
       Api.status := ApiCreate.status input;
       Api.projectId := ApiCreate.projectId input |} in
  (api,
   {| Store.teams := Store.teams s;
      Store.teamMembers := Store.teamMembers s;
      Store.projects := Store.projects s;
      Store.projectMembers := Store.projectMembers s;
      Store.apis := Store.apis s ++ [api] |}).

End api.

End prisma.

(** ** The router *)

Section Router.

Variable newId : list string -> string.
Variable ApiMethod : list string.
Variable ApiStatus : list string.

(** [protectedProcedure.input(schema).query(resolver)], and the same with
    [mutation]: the input is parsed first, and the resolver runs on the
    parsed input for the user of the session. *)
Definition protectedProcedure {I O : Type} (schema : I -> list string)
  (resolver : User.t -> I -> Store.t -> Outcome O * Store.t)
  (user : User.t) (input : I) (s : Store.t) : Outcome O * Store.t :=
  match schema input with
  | [] => resolver user input s
  | issues => (Throw (ValidationError issues), s)
  end.

Definition projectList_resolver (user : User.t) (input : ProjectList.input)
  (s : Store.t) : Outcome (list Project.t) * Store.t :=
  let projects :=
    prisma.project.findMany
      (fun p =>
         Where.contains (ProjectList.name input) (Some (Project.name p))
         && (Project.teamId p =? ProjectList.teamId input)
         && Where.equals (ProjectList.visibility input) (Project.visibility p)
         && prisma.project.members_some s
              (fun m => ProjectMember.userId m =? User.id user) p)
      s in
  (Return projects, s).

Definition projectList :=
  protectedProcedure ProjectList.schema projectList_resolver.

Definition projectCreate_resolver (user : User.t)
  (input : ProjectCreate.input) (s : Store.t)
  : Outcome Project.t * Store.t :=
  let (project, s') :=
    prisma.project.create newId
      (ProjectCreate.name input)
      (ProjectCreate.description input)
      (ProjectCreate.teamId input)
      (ProjectCreate.visibility input)
      (User.id user) Enums.Role.Owner
      s in
  (Return project, s').

Definition projectCreate :=
  protectedProcedure ProjectCreate.schema projectCreate_resolver.

Definition projectShow_resolver (user : User.t) (input : ProjectShow.input)
  (s : Store.t) : Outcome Project.t * Store.t :=
  let project :=
    prisma.project.findFirst
      (fun p =>
         (Project.id p =? ProjectShow.id input)
         && prisma.project.members_some s
              (fun m => ProjectMember.userId m =? User.id user) p)
      s in
  match project with
  | None => (Throw (Error "Project not found"), s)
  | Some project =>
      (Return
         (Project.with_visibility project
            (JS.toLowerCase (Project.visibility project))),
       s)
  end.

Definition projectShow :=
  protectedProcedure ProjectShow.schema projectShow_resolver.

Definition projectUpdate_resolver (user : User.t)
  (input : ProjectUpdate.input) (s : Store.t) : Outcome bool * Store.t :=
  let (existed, s') :=
    prisma.project.update
      (fun p =>
         (Project.id p =? ProjectUpdate.id input)
         && prisma.project.members_some s
              (fun m =>
                 (ProjectMember.userId m =? User.id user)
                 && (ProjectMember.role m =? Enums.Role.Owner)) p)
      (ProjectUpdate.name input)
      (ProjectUpdate.description input)
      (ProjectUpdate.visibility input)
      s in
  match existed with
  | None => (Throw (Error "Project not found"), s')
  | Some _ => (Return true, s')
  end.

Definition projectUpdate :=
  protectedProcedure ProjectUpdate.schema projectUpdate_resolver.

Definition projectDelete_resolver (user : User.t)
  (input : ProjectDelete.input) (s : Store.t) : Outcome bool * Store.t :=
  let (existed, s') :=
    prisma.project.delete
      (fun p =>
         (Project.id p =? ProjectDelete.id input)
         && prisma.project.members_some s
              (fun m =>
                 (ProjectMember.userId m =? User.id user)
                 && (ProjectMember.role m =? Enums.Role.Owner)) p)
      s in
  match existed with
  | None => (Throw (Error "Project not found"), s')
  | Some _ => (Return true, s')
  end.

Definition projectDelete :=
  protectedProcedure ProjectDelete.schema projectDelete_resolver.

(** [teamList] declares no input. *)
Definition teamList (user : User.t) (s : Store.t)
  : Outcome (list Team.t) * Store.t :=
  let teams :=
    prisma.team.findMany
      (fun t =>
         prisma.team.members_some s
           (fun m => TeamMember.userId m =? User.id user) t)
      s in
  (Return teams, s).

Definition teamCreate_resolver (user : User.t) (input : TeamCreate.input)
  (s : Store.t) : Outcome Team.t * Store.t :=
  let (team, s') :=
    prisma.team.create newId
      (TeamCreate.name input)
      (TeamCreate.description input)
      (User.id user) Enums.Role.Owner
      s in
  (Return team, s').

Definition teamCreate :=
  protectedProcedure TeamCreate.schema teamCreate_resolver.

Definition teamShow_resolver (user : User.t) (input : TeamShow.input)
  (s : Store.t) : Outcome Team.t * Store.t :=
  let team :=
    prisma.team.findFirst
      (fun t =>
         (Team.id t =? TeamShow.id input)
         && prisma.team.members_some s
              (fun m => TeamMember.userId m =? User.id user) t)
      s in
  match team with
  | None => (Throw (Error "Project not found"), s)
  | Some team => (Return team, s)
  end.

Definition teamShow :=
  protectedProcedure TeamShow.schema teamShow_resolver.

(** The resolver of [apiList] does not read the user of the session. *)
Definition apiList_resolver (user : User.t) (input : ApiList.input)
  (s : Store.t) : Outcome (list Api.t) * Store.t :=
  let apis :=
    prisma.api.findMany
      (fun a =>
         Where.contains (ApiList.name input) (Api.name a)
         && (Api.projectId a =? ApiList.projectId input))
      s in
  (Return apis, s).

Definition apiList :=
  protectedProcedure ApiList.schema apiList_resolver.

Definition apiCreate_resolver (user : User.t) (input : ApiCreate.input)
  (s : Store.t) : Outcome Api.t * Store.t :=
  (* Validate permission *)
  let projectMember :=
    prisma.projectMember.findFirst
      (fun m => ProjectMember.userId m =? User.id user) s in
  match projectMember with
  | None => (Throw (Error "Project not found"), s)
  | Some projectMember =>
      if negb (JS.includes [Enums.Role.Owner; Enums.Role.Maintainer]
                 (ProjectMember.role projectMember))
      then (Throw (Error "Permission denied"), s)
      else
        let (api, s') := prisma.api.create newId input s in
        (Return api, s')
  end.

Definition apiCreate :=
  protectedProcedure (ApiCreate.schema ApiMethod ApiStatus) apiCreate_resolver.

(** ** Runs of the router *)

(** A call of one procedure of the router, with its input. *)
Inductive Call :=
| call_projectList (input : ProjectList.input)
| call_projectCreate (input : ProjectCreate.input)
| call_projectShow (input : ProjectShow.input)
| call_projectUpdate (input : ProjectUpdate.input)
| call_projectDelete (input : ProjectDelete.input)
| call_teamList
| call_teamCreate (input : TeamCreate.input)
| call_teamShow (input : TeamShow.input)
| call_apiList (input : ApiList.input)
| call_apiCreate (input : ApiCreate.input).

(** The store after a call by [user]. *)
Definition run (user : User.t) (c : Call) (s : Store.t) : Store.t :=
  match c with
  | call_projectList input => snd (projectList user input s)
  | call_projectCreate input => snd (projectCreate user input s)
  | call_projectShow input => snd (projectShow user input s)
  | call_projectUpdate input => snd (projectUpdate user input s)
  | call_projectDelete input => snd (projectDelete user input s)
  | call_teamList => snd (teamList user s)
  | call_teamCreate input => snd (teamCreate user input s)
  | call_teamShow input => snd (teamShow user input s)
  | call_apiList input => snd (apiList user input s)
  | call_apiCreate input => snd (apiCreate user input s)
  end.

(** The stores that calls of the router produce from the empty store. *)
Inductive reachable : Store.t -> Prop :=
| reachable_empty : reachable Store.empty
| reachable_run (user : User.t) (c : Call) (s : Store.t) :
    reachable s -> reachable (run user c s).

End Router.

(** ** Memberships *)

(** The membership rows of a scope. *)
Definition project_memberships (s : Store.t) (projectId : string)
  : list ProjectMember.t :=
  filter (fun m => ProjectMember.projectId m =? projectId)
    (Store.projectMembers s).


(** The caller holds a membership row of the scope. *)
Definition project_member (s : Store.t) (userId projectId : string) : Prop :=
  exists m, In m (Store.projectMembers s)
    /\ ProjectMember.userId m = userId
    /\ ProjectMember.projectId m = projectId.

Definition team_member (s : Store.t) (userId teamId : string) : Prop :=
  exists m, In m (Store.teamMembers s)
    /\ TeamMember.userId m = userId
    /\ TeamMember.teamId m = teamId.

(** The caller holds a membership row of the project with role [Owner]. *)
Definition project_owner (s : Store.t) (userId projectId : string) : Prop :=
  exists m, In m (Store.projectMembers s)
    /\ ProjectMember.userId m = userId
    /\ ProjectMember.projectId m = projectId
    /\ ProjectMember.role m = Enums.Role.Owner.

Definition project_exists (s : Store.t) (projectId : string) : Prop :=
  In projectId (map Project.id (Store.projects s)).

Definition team_exists (s : Store.t) (teamId : string) : Prop :=
  In teamId (map Team.id (Store.teams s)).




(** ** Sample data *)

(** A generator of identifiers: one unit longer than the longest
    identifier in use. *)
Fixpoint units (n : nat) : string :=
  match n with
  | O => EmptyString
  | S n => String "c" (units n)
  end.

Definition sample_newId (used : list string) : string :=
  units (S (list_max (map String.length used))).

Definition sample_ApiMethod : list string := ["GET"; "POST"; "PUT"; "DELETE"].
Definition sample_ApiStatus : list string := ["DRAFT"; "PUBLISHED"].

Definition U1 : User.t := {| User.id := "U1" |}.
Definition U2 : User.t := {| User.id := "U2" |}.

Definition P1 : Project.t :=
  {| Project.id := "P1"; Project.name := "Billing";
     Project.description := "Billing service"; Project.teamId := "T1";
     Project.visibility := "PRIVATE" |}.

Definition P2 : Project.t :=
  {| Project.id := "P2"; Project.name := "Search";
     Project.description := "Search service"; Project.teamId := "T1";
     Project.visibility := "PUBLIC" |}.

Definition member_row (userId projectId role : string) : ProjectMember.t :=
  {| ProjectMember.userId := userId;
     ProjectMember.projectId := projectId;
     ProjectMember.role := role |}.

Definition sample_api_input (projectId : string) : ApiCreate.input :=
  {| ApiCreate.name := Some "List invoices";
     ApiCreate.description := None;
     ApiCreate.endpoint := "/invoices";
     ApiCreate.method := "GET";
     ApiCreate.params := JsEmptyObject;
     ApiCreate.body := JsEmptyObject;
     ApiCreate.headers := JsEmptyObject;
     ApiCreate.authorization := JsEmptyObject;
     ApiCreate.preRequestScript := "";
     ApiCreate.postResponseScript := "";
     ApiCreate.tags := [];
     ApiCreate.versions := [];
     ApiCreate.order := 0%Z;
     ApiCreate.status := None;
     ApiCreate.projectId := projectId |}.

Definition A1 : Api.t :=
  {| Api.id := "A1";
     Api.name := Some "List invoices";
     Api.description := None;
     Api.endpoint := "/invoices";
     Api.method := "GET";
     Api.params := JsEmptyObject;
     Api.body := JsEmptyObject;
     Api.headers := JsEmptyObject;
     Api.authorization := JsEmptyObject;
     Api.preRequestScript := "";
     Api.postResponseScript := "";
     Api.tags := [];
     Api.versions := [];
     Api.order := 0%Z;
     Api.status := None;
     Api.projectId := "P1" |}.

(** A store of one team, two projects of it, and the given project
    membership rows and APIs. *)
Definition sample_store (members : list ProjectMember.t) (apis : list Api.t)
  : Store.t :=
  {| Store.teams :=
       [ {| Team.id := "T1"; Team.name := "Platform";
            Team.description := None |} ];
     Store.teamMembers :=
       [ {| TeamMember.userId := "U1"; TeamMember.teamId := "T1";
            TeamMember.role := "Owner" |} ];
     Store.projects := [P1; P2];
     Store.projectMembers := members;
     Store.apis := apis |}.

(** ** Bounds of the project schemas *)

(** The name or the description is outside the bounds that
    [projectCreate] and [projectUpdate] declare. *)
Definition out_of_bounds (name description : string) : Prop :=
  (String.length name < 3 \/ 50 < String.length name
   \/ String.length description < 3 \/ 255 < String.length description)%nat.

(** ** Stored rows and the schemas *)

(** Every stored project has a name of 3 to 50 units, a description of 3
    to 255 units and a visibility of the enumeration, and every stored
    team a name of 3 to 50 units: the bounds of the schemas of
    [projectCreate], [projectUpdate] and [teamCreate]. *)
Definition within_bounds (s : Store.t) : Prop :=
  (forall p, In p (Store.projects s) ->
     (3 <= String.length (Project.name p) <= 50)%nat
     /\ (3 <= String.length (Project.description p) <= 255)%nat
     /\ (Project.visibility p = Enums.ProjectVisibility.PUBLIC
         \/ Project.visibility p = Enums.ProjectVisibility.PRIVATE))
  /\ (forall t, In t (Store.teams s) ->
        (3 <= String.length (Team.name t) <= 50)%nat).

(** * Properties *)

(** ** Lists, strings and schemas *)

Lemma existsb_false_iff {A} (f : A -> bool) (l : list A) :
  existsb f l = false <-> forall x, In x l -> f x = false.
Proof.
  induction l as [|a l IH]; simpl.
  - split; [intros _ x [] | reflexivity].
  - rewrite orb_false_iff, IH. split.
    + intros [Ha Hl] x [<- | Hx]; auto.
    + intros H. split; [apply H; now left | intros x Hx; apply H; now right].
Qed.

Lemma find_none_iff {A} (f : A -> bool) (l : list A) :
  find f l = None <-> forall x, In x l -> f x = false.
Proof.
  split.
  - apply find_none.
  - induction l as [|a l IH]; simpl; intros H; [reflexivity|].
    rewrite (H a (or_introl eq_refl)). apply IH. intros x Hx. apply H. now right.
Qed.

Lemma find_unique_id {A} (key : A -> string) (w : A -> bool) (l : list A) (x : A) :
  NoDup (map key l) -> In x l -> w x = true ->
  (forall y, w y = true -> key y = key x) ->
  find w l = Some x.
Proof.
  induction l as [|a l IH]; simpl; intros Hnd Hin Hw Hkey; [contradiction|].
  inversion Hnd as [|? ? Hnotin Hnd']; subst.
  destruct Hin as [-> | Hin].
  - now rewrite Hw.
  - destruct (w a) eqn:Hwa.
    + exfalso. apply Hnotin. rewrite (Hkey a Hwa). now apply in_map.
    + now apply IH.
Qed.

Lemma protectedProcedure_valid {I O} (schema : I -> list string)
  (resolver : User.t -> I -> Store.t -> Outcome O * Store.t) user input s :
  schema input = [] ->
  protectedProcedure schema resolver user input s = resolver user input s.
Proof. unfold protectedProcedure. now intros ->. Qed.

Lemma protectedProcedure_invalid {I O} (schema : I -> list string)
  (resolver : User.t -> I -> Store.t -> Outcome O * Store.t) user input s :
  schema input <> [] ->
  protectedProcedure schema resolver user input s =
  (Throw (ValidationError (schema input)), s).
Proof.
  unfold protectedProcedure. destruct (schema input); [congruence | reflexivity].
Qed.

Lemma str_bounds_false (lo hi : nat) (v : string) :
  (String.length v < lo \/ hi < String.length v)%nat ->
  z.str [z.min lo; z.max hi] v = false.
Proof.
  unfold z.str, z.min, z.max. simpl. intros [H | H].
  - apply Nat.leb_gt in H. now rewrite H.
  - apply Nat.leb_gt in H. rewrite H. now rewrite andb_false_r.
Qed.

(** ** Membership conditions of the [where] clauses *)

Lemma project_members_some_user s userId p :
  prisma.project.members_some s
    (fun m => ProjectMember.userId m =? userId) p = true
  <-> project_member s userId (Project.id p).
Proof.
  unfold prisma.project.members_some, project_member.
  rewrite existsb_exists. split.
  - intros (m & Hin & H). apply andb_true_iff in H as [H1 H2].
    apply String.eqb_eq in H1, H2. eauto.
  - intros (m & Hin & H1 & H2). exists m. split; [assumption|].
    now rewrite H1, H2, !String.eqb_refl.
Qed.

Lemma project_members_some_owner s userId p :
  prisma.project.members_some s
    (fun m => (ProjectMember.userId m =? userId)
              && (ProjectMember.role m =? Enums.Role.Owner)) p = true
  <-> project_owner s userId (Project.id p).
Proof.
  unfold prisma.project.members_some, project_owner.
  rewrite existsb_exists. split.
  - intros (m & Hin & H). apply andb_true_iff in H as [H1 H2].
    apply andb_true_iff in H2 as [H2 H3].
    apply String.eqb_eq in H1, H2, H3. eauto.
  - intros (m & Hin & H1 & H2 & H3). exists m. split; [assumption|].
    now rewrite H1, H2, H3, !String.eqb_refl.
Qed.

Lemma team_members_some_user s userId t :
  prisma.team.members_some s
    (fun m => TeamMember.userId m =? userId) t = true
  <-> team_member s userId (Team.id t).
Proof.
  unfold prisma.team.members_some, team_member.
  rewrite existsb_exists. split.
  - intros (m & Hin & H). apply andb_true_iff in H as [H1 H2].
    apply String.eqb_eq in H1, H2. eauto.
  - intros (m & Hin & H1 & H2). exists m. split; [assumption|].
    now rewrite H1, H2, !String.eqb_refl.
Qed.

(** ** The store operations on a filter that matches nothing *)

Lemma project_update_no_match where_ name description visibility s :
  (forall p, In p (Store.projects s) -> where_ p = false) ->
  prisma.project.update where_ name description visibility s = (None, s).
Proof.
  intros H. unfold prisma.project.update.
  now rewrite (proj2 (find_none_iff _ _) H).
Qed.

Lemma project_delete_no_match where_ s :
  (forall p, In p (Store.projects s) -> where_ p = false) ->
  prisma.project.delete where_ s = (None, s).
Proof.
  intros H. unfold prisma.project.delete.
  now rewrite (proj2 (find_none_iff _ _) H).
Qed.

Lemma not_true_is_false' (b : bool) : ~ b = true -> b = false.
Proof. now destruct b. Qed.

Lemma projectShow_denied user input s :
  ~ (project_exists s (ProjectShow.id input)
     /\ project_member s (User.id user) (ProjectShow.id input)) ->
  projectShow user input s = (Throw NotFoundOrDenied, s).
Proof.
  intros H. unfold projectShow.
  rewrite protectedProcedure_valid by reflexivity.
  unfold projectShow_resolver, prisma.project.findFirst.
  rewrite (proj2 (find_none_iff _ _)); [reflexivity|].
  intros p Hin. apply not_true_is_false'. intros Hp.
  apply andb_true_iff in Hp as [Hid Hm]. apply String.eqb_eq in Hid.
  apply project_members_some_user in Hm. rewrite Hid in Hm.
  apply H. split; [|assumption]. rewrite <- Hid. now apply in_map.
Qed.

Lemma teamShow_denied user input s :
  ~ (team_exists s (TeamShow.id input)
     /\ team_member s (User.id user) (TeamShow.id input)) ->
  teamShow user input s = (Throw NotFoundOrDenied, s).
Proof.
  intros H. unfold teamShow.
  rewrite protectedProcedure_valid by reflexivity.
  unfold teamShow_resolver, prisma.team.findFirst.
  rewrite (proj2 (find_none_iff _ _)); [reflexivity|].
  intros p Hin. apply not_true_is_false'. intros Hp.
  apply andb_true_iff in Hp as [Hid Hm]. apply String.eqb_eq in Hid.
  apply team_members_some_user in Hm. rewrite Hid in Hm.
  apply H. split; [|assumption]. rewrite <- Hid. now apply in_map.
Qed.

Lemma projectUpdate_denied user input s :
  ProjectUpdate.schema input = [] ->
  ~ (project_exists s (ProjectUpdate.id input)
     /\ project_owner s (User.id user) (ProjectUpdate.id input)) ->
  projectUpdate user input s = (Throw NotFoundOrDenied, s).
Proof.
  intros Hv H. unfold projectUpdate.
  rewrite protectedProcedure_valid by assumption.
  unfold projectUpdate_resolver.
  rewrite project_update_no_match; [reflexivity|].
  intros p Hin. apply not_true_is_false'. intros Hp.
  apply andb_true_iff in Hp as [Hid Hm]. apply String.eqb_eq in Hid.
  apply project_members_some_owner in Hm. rewrite Hid in Hm.
  apply H. split; [|assumption]. rewrite <- Hid. now apply in_map.
Qed.

Lemma projectDelete_denied user input s :
  ~ (project_exists s (ProjectDelete.id input)
     /\ project_owner s (User.id user) (ProjectDelete.id input)) ->
  projectDelete user input s = (Throw NotFoundOrDenied, s).
Proof.
  intros H. unfold projectDelete.
  rewrite protectedProcedure_valid by reflexivity.
  unfold projectDelete_resolver.
  rewrite project_delete_no_match; [reflexivity|].
  intros p Hin. apply not_true_is_false'. intros Hp.
  apply andb_true_iff in Hp as [Hid Hm]. apply String.eqb_eq in Hid.
  apply project_members_some_owner in Hm. rewrite Hid in Hm.
  apply H. split; [|assumption]. rewrite <- Hid. now apply in_map.
Qed.

(** ** Reads filtered by membership *)

(** What [projectList], [projectShow], [teamList] and [teamShow] return
    is a stored row of a scope in which the caller holds a membership. *)
Lemma reads_filtered_by_membership user s :
  (forall input l, fst (projectList user input s) = Return l ->
     forall p, In p l ->
       In p (Store.projects s)
       /\ project_member s (User.id user) (Project.id p))
  /\ (forall input shown, fst (projectShow user input s) = Return shown ->
        exists p, In p (Store.projects s)
          /\ Project.id p = ProjectShow.id input
          /\ shown = Project.with_visibility p
                       (JS.toLowerCase (Project.visibility p))
          /\ project_member s (User.id user) (Project.id p))
  /\ (forall l, fst (teamList user s) = Return l ->
        forall t, In t l ->
          In t (Store.teams s) /\ team_member s (User.id user) (Team.id t))
  /\ (forall input t, fst (teamShow user input s) = Return t ->
        In t (Store.teams s)
        /\ Team.id t = TeamShow.id input
        /\ team_member s (User.id user) (Team.id t)).
Proof.
  repeat split.
  - revert H. unfold projectList, protectedProcedure.
    destruct (ProjectList.schema input); [|discriminate].
    unfold projectList_resolver, prisma.project.findMany. simpl.
    intros [= <-]. apply filter_In in H0. tauto.
  - revert H. unfold projectList, protectedProcedure.
    destruct (ProjectList.schema input); [|discriminate].
    unfold projectList_resolver, prisma.project.findMany. simpl.
    intros [= <-]. apply filter_In in H0 as [_ H0].
    apply andb_true_iff in H0 as [_ H0].
    now apply project_members_some_user.
  - intros input shown. unfold projectShow, protectedProcedure.
    destruct (ProjectShow.schema input); [|discriminate].
    unfold projectShow_resolver, prisma.project.findFirst.
    destruct (find _ _) as [p|] eqn:Hf; [|discriminate].
    simpl. intros [= <-]. apply find_some in Hf as [Hin Hp].
    apply andb_true_iff in Hp as [Hid Hm]. apply String.eqb_eq in Hid.
    apply project_members_some_user in Hm. now exists p.
  - revert H. unfold teamList, prisma.team.findMany. simpl.
    intros [= <-]. apply filter_In in H0. tauto.
  - revert H. unfold teamList, prisma.team.findMany. simpl.
    intros [= <-]. apply filter_In in H0 as [_ H0].
    now apply team_members_some_user.
  - revert H. unfold teamShow, protectedProcedure.
    destruct (TeamShow.schema input); [|discriminate].
    unfold teamShow_resolver, prisma.team.findFirst.
    destruct (find _ _) as [p|] eqn:Hf; [|discriminate].
    simpl. intros [= <-]. now apply find_some in Hf as [Hin Hp].
  - revert H. unfold teamShow, protectedProcedure.
    destruct (TeamShow.schema input); [|discriminate].
    unfold teamShow_resolver, prisma.team.findFirst.
    destruct (find _ _) as [p|] eqn:Hf; [|discriminate].
    simpl. intros [= <-]. apply find_some in Hf as [Hin Hp].
    apply andb_true_iff in Hp as [Hid Hm]. now apply String.eqb_eq in Hid.
  - revert H. unfold teamShow, protectedProcedure.
    destruct (TeamShow.schema input); [|discriminate].
    unfold teamShow_resolver, prisma.team.findFirst.
    destruct (find _ _) as [p|] eqn:Hf; [|discriminate].
    simpl. intros [= <-]. apply find_some in Hf as [Hin Hp].
    apply andb_true_iff in Hp as [Hid Hm].
    now apply team_members_some_user in Hm.
Qed.

(** ** The permission check of [apiCreate] *)

Lemma includes_owner_maintainer (role : string) :
  JS.includes [Enums.Role.Owner; Enums.Role.Maintainer] role = true
  <-> role = Enums.Role.Owner \/ role = Enums.Role.Maintainer.
Proof.
  unfold JS.includes. simpl. rewrite orb_false_r, orb_true_iff.
  now rewrite !String.eqb_eq.
Qed.

Lemma apiCreate_no_row newId ApiMethod ApiStatus user input s :
  ApiCreate.schema ApiMethod ApiStatus input = [] ->
  (forall m, In m (Store.projectMembers s) ->
     ProjectMember.userId m <> User.id user) ->
  apiCreate newId ApiMethod ApiStatus user input s =
  (Throw (Error "Project not found"), s).
Proof.
  intros Hv H. unfold apiCreate.
  rewrite protectedProcedure_valid by assumption.
  unfold apiCreate_resolver, prisma.projectMember.findFirst.
  rewrite (proj2 (find_none_iff _ _)); [reflexivity|].
  intros m Hm. now apply String.eqb_neq, H.
Qed.

Lemma apiCreate_consulted_denies newId ApiMethod ApiStatus user input s m :
  ApiCreate.schema ApiMethod ApiStatus input = [] ->
  prisma.projectMember.findFirst
    (fun m => ProjectMember.userId m =? User.id user) s = Some m ->
  ProjectMember.role m <> Enums.Role.Owner ->
  ProjectMember.role m <> Enums.Role.Maintainer ->
  apiCreate newId ApiMethod ApiStatus user input s =
  (Throw (Error "Permission denied"), s).
Proof.
  intros Hv Hf Ho Hm. unfold apiCreate.
  rewrite protectedProcedure_valid by assumption.
  unfold apiCreate_resolver. rewrite Hf.
  destruct (JS.includes _ _) eqn:Hi; [|reflexivity].
  apply includes_owner_maintainer in Hi. tauto.
Qed.

Lemma apiCreate_consulted_allows newId ApiMethod ApiStatus user input s m :
  ApiCreate.schema ApiMethod ApiStatus input = [] ->
  prisma.projectMember.findFirst
    (fun m => ProjectMember.userId m =? User.id user) s = Some m ->
  ProjectMember.role m = Enums.Role.Owner
  \/ ProjectMember.role m = Enums.Role.Maintainer ->
  apiCreate newId ApiMethod ApiStatus user input s =
  (Return (fst (prisma.api.create newId input s)),
   snd (prisma.api.create newId input s)).
Proof.
  intros Hv Hf Hr. unfold apiCreate.
  rewrite protectedProcedure_valid by assumption.
  unfold apiCreate_resolver. rewrite Hf.
  apply includes_owner_maintainer in Hr. now rewrite Hr.
Qed.

(** ** A run of the router *)

(** U1 creates a team and a private project of it; the team is in U1's
    [teamList], the project is in U1's [projectList] and not in that of
    U2, and U2 is refused by [projectShow]. *)
Example create_then_list :
  let run := run sample_newId sample_ApiMethod sample_ApiStatus in
  let s1 :=
    run U1
      (call_teamCreate
         {| TeamCreate.name := "Platform"; TeamCreate.description := None |})
      Store.empty in
  let s2 :=
    run U1
      (call_projectCreate
         {| ProjectCreate.name := "Billing";
            ProjectCreate.description := "Billing service";
            ProjectCreate.teamId := "c";
            ProjectCreate.visibility := "PRIVATE" |})
      s1 in
  let of_team :=
    {| ProjectList.name := None; ProjectList.teamId := "c";
       ProjectList.visibility := None |} in
  fst (teamList U1 s2) = Return (Store.teams s2)
  /\ Store.teamMembers s2
     = [ {| TeamMember.userId := "U1"; TeamMember.teamId := "c";
            TeamMember.role := "Owner" |} ]
  /\ Store.projectMembers s2 = [member_row "U1" "c" "Owner"]
  /\ fst (projectList U1 of_team s2) = Return (Store.projects s2)
  /\ fst (projectList U2 of_team s2) = Return []
  /\ fst (projectShow U2 {| ProjectShow.id := "c" |} s2)
     = Throw NotFoundOrDenied
  /\ fst (projectShow U1 {| ProjectShow.id := "c" |} s2)
     = Return {| Project.id := "c"; Project.name := "Billing";
                 Project.description := "Billing service";
                 Project.teamId := "c"; Project.visibility := "private" |}.
Proof. repeat split. Qed.

(** ** C1: reads and membership *)

(** C1.  The claim is that no show or list operation returns an entity of
    a scope in which the caller holds no membership.  [apiList] does:
    here the store holds the project P1, whose only member is U1, and
    the API A1 of P1; called by U2, who holds no membership row at all,
    [apiList] with [projectId] P1 returns A1. *)
Theorem apiList_ignores_membership :
  let s := sample_store [member_row "U1" "P1" "Owner"] [A1] in
  ~ project_member s (User.id U2) (Api.projectId A1)
  /\ apiList U2 {| ApiList.name := None; ApiList.projectId := "P1" |} s
     = (Return [A1], s).
Proof.
  split; [|reflexivity].
  intros (m & [<- | []] & Hu & _). discriminate Hu.
Qed.

(** ** C4: updates and deletes by a caller who is not an owner *)

(** C4.  When every membership row of the caller on a project has role
    [Maintainer] or [Member], [projectUpdate] (on an input that parses)
    and [projectDelete] of that project fail with the generic "not
    found" and return the store as it was. *)
Theorem projectUpdate_projectDelete_non_owner user id s :
  (forall m, In m (Store.projectMembers s) ->
     ProjectMember.userId m = User.id user ->
     ProjectMember.projectId m = id ->
     ProjectMember.role m = Enums.Role.Maintainer
     \/ ProjectMember.role m = Enums.Role.Member) ->
  (forall input,
     ProjectUpdate.id input = id ->
     ProjectUpdate.schema input = [] ->
     projectUpdate user input s = (Throw NotFoundOrDenied, s))
  /\ projectDelete user {| ProjectDelete.id := id |} s
     = (Throw NotFoundOrDenied, s).
Proof.
  intros H.
  assert (Hno : ~ project_owner s (User.id user) id).
  { intros (m & Hin & Hu & Hp & Hr).
    destruct (H m Hin Hu Hp) as [Hr' | Hr']; rewrite Hr' in Hr; discriminate. }
  split.
  - intros input <- Hv. apply projectUpdate_denied; tauto.
  - apply projectDelete_denied. simpl. tauto.
Qed.

Lemma projectUpdate_projectDelete_non_owner_witness :
  let s := sample_store
             [member_row "U1" "P1" "Owner"; member_row "U2" "P1" "Maintainer"]
             [] in
  projectUpdate U2
    {| ProjectUpdate.id := "P1"; ProjectUpdate.name := "Ledger";
       ProjectUpdate.description := "Ledger service";
       ProjectUpdate.visibility := "PUBLIC" |} s
  = (Throw NotFoundOrDenied, s)
  /\ projectDelete U2 {| ProjectDelete.id := "P1" |} s
     = (Throw NotFoundOrDenied, s).
Proof.
  intros s.
  destruct (projectUpdate_projectDelete_non_owner U2 "P1" s) as [Hu Hd].
  - simpl. intros m [<- | [<- | []]] Hu Hp; simpl in *.
    + discriminate Hu.
    + now left.
  - split; [apply Hu; reflexivity | exact Hd].
Defined.

(** ** C8: inputs out of bounds *)

Lemma projectCreate_schema_out_of_bounds input :
  out_of_bounds (ProjectCreate.name input) (ProjectCreate.description input) ->
  ProjectCreate.schema input <> [].
Proof.
  intros H Hs.
  pose proof (str_bounds_false 3 50 (ProjectCreate.name input)) as Hn.
  pose proof (str_bounds_false 3 255 (ProjectCreate.description input)) as Hd.
  unfold ProjectCreate.schema, z.object in Hs. revert Hn Hd Hs.
  destruct (z.str [z.min 3; z.max 50] _);
    destruct (z.str [z.min 3; z.max 255] _);
    intros Hn Hd Hs; try discriminate Hs.
  destruct H as [H | [H | [H | H]]].
  - discriminate (Hn (or_introl H)).
  - discriminate (Hn (or_intror H)).
  - discriminate (Hd (or_introl H)).
  - discriminate (Hd (or_intror H)).
Qed.

Lemma projectUpdate_schema_out_of_bounds input :
  out_of_bounds (ProjectUpdate.name input) (ProjectUpdate.description input) ->
  ProjectUpdate.schema input <> [].
Proof.
  intros H Hs.
  pose proof (str_bounds_false 3 50 (ProjectUpdate.name input)) as Hn.
  pose proof (str_bounds_false 3 255 (ProjectUpdate.description input)) as Hd.
  unfold ProjectUpdate.schema, z.object in Hs. revert Hn Hd Hs.
  destruct (z.str [z.min 3; z.max 50] _);
    destruct (z.str [z.min 3; z.max 255] _);
    intros Hn Hd Hs; try discriminate Hs.
  destruct H as [H | [H | [H | H]]].
  - discriminate (Hn (or_introl H)).
  - discriminate (Hn (or_intror H)).
  - discriminate (Hd (or_introl H)).
  - discriminate (Hd (or_intror H)).
Qed.

(** C8.  A [projectCreate] or [projectUpdate] input whose name or
    description is out of bounds is rejected with a validation error and
    the store is returned as it was; this holds whatever resolver the
    schema guards, so neither the membership check nor a store operation
    of the resolver has run. *)
Theorem out_of_bounds_rejected_before_resolver newId user s :
  (forall input,
     out_of_bounds (ProjectCreate.name input)
       (ProjectCreate.description input) ->
     exists issues, issues <> []
       /\ projectCreate newId user input s
          = (Throw (ValidationError issues), s)
       /\ forall O (resolver : User.t -> ProjectCreate.input -> Store.t ->
                               Outcome O * Store.t),
            protectedProcedure ProjectCreate.schema resolver user input s
            = (Throw (ValidationError issues), s))
  /\ (forall input,
        out_of_bounds (ProjectUpdate.name input)
          (ProjectUpdate.description input) ->
        exists issues, issues <> []
          /\ projectUpdate user input s
             = (Throw (ValidationError issues), s)
          /\ forall O (resolver : User.t -> ProjectUpdate.input -> Store.t ->
                                  Outcome O * Store.t),
               protectedProcedure ProjectUpdate.schema resolver user input s
               = (Throw (ValidationError issues), s)).
Proof.
  split; intros input H.
  - apply projectCreate_schema_out_of_bounds in H.
    exists (ProjectCreate.schema input). split; [assumption|].
    split; [|intros O resolver]; now apply protectedProcedure_invalid.
  - apply projectUpdate_schema_out_of_bounds in H.
    exists (ProjectUpdate.schema input). split; [assumption|].
    split; [|intros O resolver]; now apply protectedProcedure_invalid.
Qed.

Lemma out_of_bounds_rejected_before_resolver_witness :
  let s := sample_store [member_row "U1" "P1" "Owner"] [] in
  (exists issues, issues <> []
     /\ projectCreate sample_newId U1
          {| ProjectCreate.name := "ab";
             ProjectCreate.description := "Billing service";
             ProjectCreate.teamId := "T1";
             ProjectCreate.visibility := "PUBLIC" |} s
        = (Throw (ValidationError issues), s))
  /\ (exists issues, issues <> []
        /\ projectUpdate U1
             {| ProjectUpdate.id := "P1"; ProjectUpdate.name := "Ledger";
                ProjectUpdate.description := "ab";
                ProjectUpdate.visibility := "PUBLIC" |} s
           = (Throw (ValidationError issues), s)).
Proof.
  intros s.
  destruct (out_of_bounds_rejected_before_resolver sample_newId U1 s)
    as [Hc Hu].
  split.
  - destruct (Hc {| ProjectCreate.name := "ab";
                    ProjectCreate.description := "Billing service";
                    ProjectCreate.teamId := "T1";
                    ProjectCreate.visibility := "PUBLIC" |})
      as (issues & Hne & Heq & _).
    + unfold out_of_bounds. simpl. lia.
    + now exists issues.
  - destruct (Hu {| ProjectUpdate.id := "P1"; ProjectUpdate.name := "Ledger";
                    ProjectUpdate.description := "ab";
                    ProjectUpdate.visibility := "PUBLIC" |})
      as (issues & Hne & Heq & _).
    + unfold out_of_bounds. simpl. lia.
    + now exists issues.
Defined.

(** ** C2: [apiCreate] by an owner of the target project *)

(** C2.  The claim is that [apiCreate] succeeds for an Owner of the
    project named by [input.projectId].  Here U2 is Owner of P2, the
    target, and Member of P1; the permission check reads the first
    membership row of U2, that of P1, and the call is refused. *)
Theorem apiCreate_refuses_owner_of_target :
  let s := sample_store
             [member_row "U2" "P1" "Member"; member_row "U2" "P2" "Owner"]
             [] in
  project_exists s "P2"
  /\ project_owner s (User.id U2) "P2"
  /\ ApiCreate.schema sample_ApiMethod sample_ApiStatus (sample_api_input "P2")
     = []
  /\ apiCreate sample_newId sample_ApiMethod sample_ApiStatus U2
       (sample_api_input "P2") s
     = (Throw (Error "Permission denied"), s).
Proof.
  intros s. split; [|split; [|split]].
  - unfold project_exists. simpl. auto.
  - exists (member_row "U2" "P2" "Owner"). simpl. auto.
  - reflexivity.
  - reflexivity.
Qed.

(** ** C5: what a refused caller observes *)

(** C5, as stated, fails: [apiCreate] has two refusals.  For U2 and the
    target P1, the store in which P1 does not exist yields "Project not
    found", and the store in which P1 exists and U2 is a Member of it
    yields "Permission denied". *)
Lemma apiCreate_refusals_differ :
  let absent := Store.empty in
  let present :=
    sample_store
      [member_row "U1" "P1" "Owner"; member_row "U2" "P1" "Member"] [] in
  let call :=
    apiCreate sample_newId sample_ApiMethod sample_ApiStatus U2
      (sample_api_input "P1") in
  ~ project_exists absent "P1"
  /\ project_exists present "P1"
  /\ project_memberships present "P1"
     = [member_row "U1" "P1" "Owner"; member_row "U2" "P1" "Member"]
  /\ call absent = (Throw NotFoundOrDenied, absent)
  /\ call present = (Throw (Error "Permission denied"), present)
  /\ fst (call absent) <> fst (call present).
Proof.
  intros absent present call. repeat apply conj.
  - intros [].
  - unfold project_exists. simpl. auto.
  - reflexivity.
  - reflexivity.
  - reflexivity.
  - discriminate.
Qed.

(** C5, amended.  For [projectShow], [teamShow], [projectUpdate] and
    [projectDelete] the run in which the resource does not exist and the
    run in which it exists but the caller lacks the membership (for
    update and delete: the Owner membership) end in the same generic
    "not found", each on its store unchanged.  [apiCreate] has two
    refusals: "Project not found" when the caller holds no project
    membership row at all, and "Permission denied" when the row it
    consults has a role other than Owner or Maintainer. *)
Theorem refusals_of_the_router newId ApiMethod ApiStatus user id
  (absent present : Store.t) :
  (~ project_exists absent id ->
   ~ project_member present (User.id user) id ->
   projectShow user {| ProjectShow.id := id |} absent
   = (Throw NotFoundOrDenied, absent)
   /\ projectShow user {| ProjectShow.id := id |} present
      = (Throw NotFoundOrDenied, present))
  /\ (~ team_exists absent id ->
      ~ team_member present (User.id user) id ->
      teamShow user {| TeamShow.id := id |} absent
      = (Throw NotFoundOrDenied, absent)
      /\ teamShow user {| TeamShow.id := id |} present
         = (Throw NotFoundOrDenied, present))
  /\ (~ project_exists absent id ->
      ~ project_owner present (User.id user) id ->
      forall input,
        ProjectUpdate.id input = id ->
        ProjectUpdate.schema input = [] ->
        projectUpdate user input absent = (Throw NotFoundOrDenied, absent)
        /\ projectUpdate user input present
           = (Throw NotFoundOrDenied, present))
  /\ (~ project_exists absent id ->
      ~ project_owner present (User.id user) id ->
      projectDelete user {| ProjectDelete.id := id |} absent
      = (Throw NotFoundOrDenied, absent)
      /\ projectDelete user {| ProjectDelete.id := id |} present
         = (Throw NotFoundOrDenied, present))
  /\ (forall input,
        ApiCreate.schema ApiMethod ApiStatus input = [] ->
        ((forall m, In m (Store.projectMembers present) ->
            ProjectMember.userId m <> User.id user) ->
         apiCreate newId ApiMethod ApiStatus user input present
         = (Throw (Error "Project not found"), present))
        /\ (forall m,
              prisma.projectMember.findFirst
                (fun m => ProjectMember.userId m =? User.id user) present
              = Some m ->
              ProjectMember.role m <> Enums.Role.Owner ->
              ProjectMember.role m <> Enums.Role.Maintainer ->
              apiCreate newId ApiMethod ApiStatus user input present
              = (Throw (Error "Permission denied"), present))).
Proof.
  repeat apply conj.
  - intros Ha Hp. split; apply projectShow_denied; simpl; tauto.
  - intros Ha Hp. split; apply teamShow_denied; simpl; tauto.
  - intros Ha Hp input <- Hv. split; apply projectUpdate_denied; tauto.
  - intros Ha Hp. split; apply projectDelete_denied; simpl; tauto.
  - intros input Hv. split.
    + now apply apiCreate_no_row.
    + intros m. now apply apiCreate_consulted_denies.
Qed.

Lemma refusals_of_the_router_witness :
  let absent := Store.empty in
  let present :=
    sample_store
      [member_row "U1" "P1" "Owner"; member_row "U2" "P2" "Member"] [] in
  (projectShow U2 {| ProjectShow.id := "P1" |} absent
   = (Throw NotFoundOrDenied, absent)
   /\ projectShow U2 {| ProjectShow.id := "P1" |} present
      = (Throw NotFoundOrDenied, present))
  /\ (teamShow U2 {| TeamShow.id := "T1" |} absent
      = (Throw NotFoundOrDenied, absent)
      /\ teamShow U2 {| TeamShow.id := "T1" |} present
         = (Throw NotFoundOrDenied, present))
  /\ (projectUpdate U2
        {| ProjectUpdate.id := "P1"; ProjectUpdate.name := "Ledger";
           ProjectUpdate.description := "Ledger service";
           ProjectUpdate.visibility := "PUBLIC" |} absent
      = (Throw NotFoundOrDenied, absent)
      /\ projectUpdate U2
           {| ProjectUpdate.id := "P1"; ProjectUpdate.name := "Ledger";
              ProjectUpdate.description := "Ledger service";
              ProjectUpdate.visibility := "PUBLIC" |} present
         = (Throw NotFoundOrDenied, present))
  /\ (projectDelete U2 {| ProjectDelete.id := "P1" |} absent
      = (Throw NotFoundOrDenied, absent)
      /\ projectDelete U2 {| ProjectDelete.id := "P1" |} present
         = (Throw NotFoundOrDenied, present))
  /\ apiCreate sample_newId sample_ApiMethod sample_ApiStatus U2
       (sample_api_input "P1") present
     = (Throw (Error "Permission denied"), present).
Proof.
  intros absent present.
  destruct (refusals_of_the_router sample_newId sample_ApiMethod
              sample_ApiStatus U2 "P1" absent present)
    as (Hshow & _ & Hupdate & Hdelete & Hapi).
  destruct (refusals_of_the_router sample_newId sample_ApiMethod
              sample_ApiStatus U2 "T1" absent present)
    as (_ & Hteam & _).
  assert (Hno : ~ project_member present (User.id U2) "P1").
  { intros (m & [<- | [<- | []]] & Hu & Hp); discriminate. }
  assert (Hown : ~ project_owner present (User.id U2) "P1").
  { intros (m & Hin & Hu & Hp & _). apply Hno. now exists m. }
  assert (Hnt : ~ team_member present (User.id U2) "T1").
  { intros (m & [<- | []] & Hu & Hp); discriminate. }
  repeat apply conj.
  - apply Hshow; [intros [] | exact Hno].
  - apply Hshow; [intros [] | exact Hno].
  - apply Hteam; [intros [] | exact Hnt].
  - apply Hteam; [intros [] | exact Hnt].
  - apply Hupdate; [intros [] | exact Hown | reflexivity | reflexivity].
  - apply Hupdate; [intros [] | exact Hown | reflexivity | reflexivity].
  - apply Hdelete; [intros [] |].
    intros (m & Hin & Hu & Hp & _). apply Hno. now exists m.
  - apply Hdelete; [intros [] |].
    intros (m & Hin & Hu & Hp & _). apply Hno. now exists m.
  - destruct (Hapi (sample_api_input "P1") eq_refl) as [_ Hdenied].
    apply (Hdenied (member_row "U2" "P2" "Member")).
    + reflexivity.
    + discriminate.
    + discriminate.
Defined.

(** ** C10: the permission check of [apiCreate] is not scoped *)

Lemma find_some_of_exists {A} (f : A -> bool) (l : list A) :
  (exists x, In x l /\ f x = true) ->
  exists y, find f l = Some y /\ In y l /\ f y = true.
Proof.
  intros (x & Hin & Hx). destruct (find f l) as [y|] eqn:Hf.
  - exists y. apply find_some in Hf. tauto.
  - rewrite (find_none _ _ Hf x Hin) in Hx. discriminate.
Qed.

(** C10.  Whether [apiCreate] is refused, and how, is the same for any
    two inputs that parse, whatever their [projectId].  A caller who
    holds a membership row, all of whose rows have role Owner or
    Maintainer, creates the API under every [projectId], a member of
    that project or not.  A caller whose consulted row has role Member
    is refused, whatever other rows the caller holds. *)
Theorem apiCreate_authorization_ignores_projectId
  newId ApiMethod ApiStatus user s :
  (forall input input' e,
     ApiCreate.schema ApiMethod ApiStatus input = [] ->
     ApiCreate.schema ApiMethod ApiStatus input' = [] ->
     fst (apiCreate newId ApiMethod ApiStatus user input s) = Throw e ->
     apiCreate newId ApiMethod ApiStatus user input' s = (Throw e, s))
  /\ (forall input,
        ApiCreate.schema ApiMethod ApiStatus input = [] ->
        (exists m, In m (Store.projectMembers s)
           /\ ProjectMember.userId m = User.id user) ->
        (forall m, In m (Store.projectMembers s) ->
           ProjectMember.userId m = User.id user ->
           ProjectMember.role m = Enums.Role.Owner
           \/ ProjectMember.role m = Enums.Role.Maintainer) ->
        exists api,
          apiCreate newId ApiMethod ApiStatus user input s
          = (Return api,
             {| Store.teams := Store.teams s;
                Store.teamMembers := Store.teamMembers s;
                Store.projects := Store.projects s;
                Store.projectMembers := Store.projectMembers s;
                Store.apis := Store.apis s ++ [api] |})
          /\ Api.projectId api = ApiCreate.projectId input)
  /\ (forall input m,
        ApiCreate.schema ApiMethod ApiStatus input = [] ->
        prisma.projectMember.findFirst
          (fun m => ProjectMember.userId m =? User.id user) s = Some m ->
        ProjectMember.role m = Enums.Role.Member ->
        apiCreate newId ApiMethod ApiStatus user input s
        = (Throw (Error "Permission denied"), s)).
Proof.
  repeat apply conj.
  - intros input input' e Hv Hv'. unfold apiCreate.
    rewrite !protectedProcedure_valid by assumption.
    unfold apiCreate_resolver.
    destruct (prisma.projectMember.findFirst _ s) as [m|].
    + destruct (negb _).
      * simpl. now intros [= <-].
      * destruct (prisma.api.create newId input s). discriminate.
    + simpl. now intros [= <-].
  - intros input Hv (m & Hin & Hu) Hall.
    destruct (find_some_of_exists
                (fun m => ProjectMember.userId m =? User.id user)
                (Store.projectMembers s)) as (m' & Hf & Hin' & Hu').
    { exists m. split; [assumption|]. now apply String.eqb_eq. }
    apply String.eqb_eq in Hu'.
    rewrite (apiCreate_consulted_allows _ _ _ _ _ _ m' Hv Hf (Hall m' Hin' Hu')).
    eexists. split; reflexivity.
  - intros input m Hv Hf Hr.
    apply apiCreate_consulted_denies with (m := m); try assumption;
      rewrite Hr; discriminate.
Qed.

Lemma apiCreate_authorization_ignores_projectId_witness :
  let maintainer_of_P1 := sample_store [member_row "U2" "P1" "Maintainer"] [] in
  let member_first :=
    sample_store
      [member_row "U2" "P1" "Member"; member_row "U2" "P2" "Owner"] [] in
  let call := apiCreate sample_newId sample_ApiMethod sample_ApiStatus U2 in
  ~ project_member maintainer_of_P1 (User.id U2) "P2"
  /\ (exists api,
        fst (call (sample_api_input "P2") maintainer_of_P1) = Return api
        /\ Api.projectId api = "P2")
  /\ project_owner member_first (User.id U2) "P2"
  /\ call (sample_api_input "P2") member_first
     = (Throw (Error "Permission denied"), member_first)
  /\ call (sample_api_input "P1") member_first
     = (Throw (Error "Permission denied"), member_first).
Proof.
  intros maintainer_of_P1 member_first call.
  destruct (apiCreate_authorization_ignores_projectId sample_newId
              sample_ApiMethod sample_ApiStatus U2 maintainer_of_P1)
    as (_ & Hallow & _).
  destruct (apiCreate_authorization_ignores_projectId sample_newId
              sample_ApiMethod sample_ApiStatus U2 member_first)
    as (Hsame & _ & Hdeny).
  assert (Hd : call (sample_api_input "P2") member_first
               = (Throw (Error "Permission denied"), member_first)).
  { apply (Hdeny (sample_api_input "P2") (member_row "U2" "P1" "Member"));
      reflexivity. }
  repeat apply conj.
  - intros (m & [<- | []] & Hu & Hp). discriminate Hp.
  - destruct (Hallow (sample_api_input "P2") eq_refl) as (api & Heq & Hp).
    + exists (member_row "U2" "P1" "Maintainer"). simpl. auto.
    + intros m [<- | []] _. now right.
    + exists api. unfold call. rewrite Heq. now split.
  - exists (member_row "U2" "P2" "Owner"). simpl. auto.
  - exact Hd.
  - apply (Hsame (sample_api_input "P2") (sample_api_input "P1"));
      [reflexivity | reflexivity |].
    unfold call in Hd. now rewrite Hd.
Defined.

(** ** C9: the visibility that [projectShow] and [projectList] return *)

Example toLowerCase_visibility :
  JS.toLowerCase Enums.ProjectVisibility.PRIVATE = "private"
  /\ JS.toLowerCase Enums.ProjectVisibility.PUBLIC = "public".
Proof. split; reflexivity. Qed.

(** C9.  For a stored project of which the caller is a member,
    [projectShow] returns the stored row with its visibility in lower
    case (a stored PRIVATE comes back as "private", a stored PUBLIC as
    "public") and every other field as stored, while [projectList]
    returns rows of the store as they are stored, this project among
    them when the filter is its team. *)
Theorem projectShow_lowercases_projectList_does_not user p s :
  In p (Store.projects s) ->
  NoDup (map Project.id (Store.projects s)) ->
  project_member s (User.id user) (Project.id p) ->
  projectShow user {| ProjectShow.id := Project.id p |} s
  = (Return
       {| Project.id := Project.id p;
          Project.name := Project.name p;
          Project.description := Project.description p;
          Project.teamId := Project.teamId p;
          Project.visibility := JS.toLowerCase (Project.visibility p) |},
     s)
  /\ (Project.visibility p = "PRIVATE" ->
      fst (projectShow user {| ProjectShow.id := Project.id p |} s)
      = Return
          {| Project.id := Project.id p;
             Project.name := Project.name p;
             Project.description := Project.description p;
             Project.teamId := Project.teamId p;
             Project.visibility := "private" |})
  /\ (Project.visibility p = "PUBLIC" ->
      fst (projectShow user {| ProjectShow.id := Project.id p |} s)
      = Return
          {| Project.id := Project.id p;
             Project.name := Project.name p;
             Project.description := Project.description p;
             Project.teamId := Project.teamId p;
             Project.visibility := "public" |})
  /\ (exists l,
        projectList user
          {| ProjectList.name := None;
             ProjectList.teamId := Project.teamId p;
             ProjectList.visibility := None |} s
        = (Return l, s)
        /\ In p l)
  /\ (forall input l,
        fst (projectList user input s) = Return l ->
        forall q, In q l -> In q (Store.projects s)).
Proof.
  intros Hin Hnd Hm.
  assert (Hshow :
    projectShow user {| ProjectShow.id := Project.id p |} s
    = (Return
         {| Project.id := Project.id p;
            Project.name := Project.name p;
            Project.description := Project.description p;
            Project.teamId := Project.teamId p;
            Project.visibility := JS.toLowerCase (Project.visibility p) |},
       s)).
  { unfold projectShow. rewrite protectedProcedure_valid by reflexivity.
    unfold projectShow_resolver, prisma.project.findFirst.
    rewrite (find_unique_id Project.id _ _ p Hnd Hin); [reflexivity | |].
    - simpl. rewrite String.eqb_refl. simpl.
      now apply project_members_some_user.
    - intros q Hq. apply andb_true_iff in Hq as [Hq _].
      now apply String.eqb_eq in Hq. }
  repeat apply conj.
  - exact Hshow.
  - intros Hv. rewrite Hshow. cbn [fst]. now rewrite Hv.
  - intros Hv. rewrite Hshow. cbn [fst]. now rewrite Hv.
  - eexists. split.
    + unfold projectList. rewrite protectedProcedure_valid by reflexivity.
      reflexivity.
    + unfold prisma.project.findMany. apply filter_In. split; [assumption|].
      simpl. rewrite String.eqb_refl. simpl.
      now apply project_members_some_user.
  - intros input l Hl q Hq.
    now apply (proj1 (reads_filtered_by_membership user s) input l Hl q Hq).
Qed.

Lemma projectShow_lowercases_projectList_does_not_witness :
  let s := sample_store
             [member_row "U1" "P1" "Owner"; member_row "U2" "P1" "Member"]
             [] in
  projectShow U2 {| ProjectShow.id := "P1" |} s
  = (Return
       {| Project.id := "P1"; Project.name := "Billing";
          Project.description := "Billing service"; Project.teamId := "T1";
          Project.visibility := "private" |},
     s)
  /\ projectList U2
       {| ProjectList.name := None; ProjectList.teamId := "T1";
          ProjectList.visibility := None |} s
     = (Return
          [ {| Project.id := "P1"; Project.name := "Billing";
               Project.description := "Billing service";
               Project.teamId := "T1"; Project.visibility := "PRIVATE" |} ],
        s).
Proof.
  intros s.
  destruct (projectShow_lowercases_projectList_does_not U2 P1 s)
    as (Hshow & _ & _ & _).
  - simpl. auto.
  - simpl. repeat constructor; simpl; intuition discriminate.
  - exists (member_row "U2" "P1" "Member"). simpl. auto.
  - split; [exact Hshow | reflexivity].
Defined.

(** ** Rows written by the store *)

Lemma find_app_no_match {A} (f : A -> bool) (l l' : list A) :
  (forall x, In x l -> f x = false) -> find f (l ++ l') = find f l'.
Proof.
  induction l as [|a l IH]; simpl; intros H; [reflexivity|].
  rewrite (H a (or_introl eq_refl)). apply IH. intros x Hx. apply H. now right.
Qed.


Lemma map_replace_first {A} (key : A -> string) (w : A -> bool)
  (data : A -> A) (l : list A) :
  (forall x, key (data x) = key x) ->
  map key (prisma.replace_first w data l) = map key l.
Proof.
  intros H. induction l as [|a l IH]; simpl; [reflexivity|].
  destruct (w a); simpl; [now rewrite H | now rewrite IH].
Qed.


(** ** Invariants of the runs *)









Section Fresh.

Variable newId : list string -> string.
Variable ApiMethod : list string.
Variable ApiStatus : list string.

(** The identifier of a new row is not that of a row of its table. *)
Hypothesis newId_fresh : forall used, ~ In (newId used) used.



(** ** C6: a project read back after its creation *)

Lemma projectCreate_schema_visibility input :
  ProjectCreate.schema input = [] ->
  ProjectCreate.visibility input = Enums.ProjectVisibility.PUBLIC
  \/ ProjectCreate.visibility input = Enums.ProjectVisibility.PRIVATE.
Proof.
  unfold ProjectCreate.schema, z.object.
  destruct (z.str [z.min 3; z.max 50] _); [|discriminate].
  destruct (z.str [z.min 3; z.max 255] _); [|discriminate].
  destruct (z.str [] _); [|discriminate].
  destruct (z.enum _ _) eqn:E; [|discriminate].
  intros _. unfold z.enum, JS.includes in E. simpl in E.
  rewrite orb_false_r in E. apply orb_true_iff in E.
  now rewrite !String.eqb_eq in E.
Qed.

(** C6.  After [projectCreate] on an input that parses, [projectShow] by
    the creator with the [id] of the created project returns that
    project: the same name and description, and the visibility of the
    input in lower case. *)
Theorem projectCreate_projectShow_round_trip user input s :
  ProjectCreate.schema input = [] ->
  exists p s' shown,
    projectCreate newId user input s = (Return p, s')
    /\ projectShow user {| ProjectShow.id := Project.id p |} s'
       = (Return shown, s')
    /\ Project.id shown = Project.id p
    /\ Project.name shown = ProjectCreate.name input
    /\ Project.description shown = ProjectCreate.description input
    /\ Project.teamId shown = ProjectCreate.teamId input
    /\ Project.visibility shown
       = JS.toLowerCase (ProjectCreate.visibility input)
    /\ (ProjectCreate.visibility input = "PUBLIC"
          /\ Project.visibility shown = "public"
        \/ ProjectCreate.visibility input = "PRIVATE"
           /\ Project.visibility shown = "private").
Proof.
  intros Hv. unfold projectCreate.
  rewrite protectedProcedure_valid by assumption.
  unfold projectCreate_resolver, prisma.project.create.
  eexists _, _, _. split; [reflexivity|].
  split.
  - unfold projectShow. rewrite protectedProcedure_valid by reflexivity.
    unfold projectShow_resolver, prisma.project.findFirst.
    cbn [Store.projects ProjectShow.id Project.id].
    rewrite find_app_no_match.
    + cbn [find Project.id]. rewrite String.eqb_refl.
      rewrite (proj2 (project_members_some_user _ _ _)); [reflexivity|].
      eexists. split; [apply in_or_app; right; left; reflexivity|].
      split; reflexivity.
    + intros q Hq. apply andb_false_iff. left. apply String.eqb_neq.
      intros E. apply (newId_fresh (map Project.id (Store.projects s))).
      rewrite <- E. now apply in_map.
  - cbn [Project.with_visibility Project.id Project.name Project.description
         Project.teamId Project.visibility].
    repeat (split; [reflexivity|]).
    destruct (projectCreate_schema_visibility input Hv) as [-> | ->];
      [left | right]; split; reflexivity.
Qed.

(** ** C3: an entity is created together with its owner membership *)


End Fresh.

(** ** The sample generator *)

Lemma units_length n : String.length (units n) = n.
Proof. induction n as [|n IH]; simpl; [reflexivity | now rewrite IH]. Qed.

Lemma sample_newId_fresh used : ~ In (sample_newId used) used.
Proof.
  intros H. apply (in_map String.length) in H.
  unfold sample_newId in H. rewrite units_length in H.
  pose proof (proj1 (list_max_le (map String.length used)
                       (list_max (map String.length used)))
                (Nat.le_refl _)) as Hmax.
  rewrite Forall_forall in Hmax. apply Hmax in H. lia.
Qed.

Lemma projectCreate_projectShow_round_trip_witness :
  let input :=
    {| ProjectCreate.name := "Ledger";
       ProjectCreate.description := "Ledger service";
       ProjectCreate.teamId := "T1";
       ProjectCreate.visibility := "PRIVATE" |} in
  let s := sample_store [member_row "U1" "P1" "Owner"] [] in
  exists p s' shown,
    projectCreate sample_newId U2 input s = (Return p, s')
    /\ projectShow U2 {| ProjectShow.id := Project.id p |} s'
       = (Return shown, s')
    /\ Project.name shown = "Ledger"
    /\ Project.description shown = "Ledger service"
    /\ Project.visibility shown = "private".
Proof.
  intros input s.
  destruct (projectCreate_projectShow_round_trip sample_newId
              sample_newId_fresh U2 input s eq_refl)
    as (p & s' & shown & Hc & Hs & _ & Hn & Hd & _ & Hv & _).
  exists p, s', shown. repeat split; assumption.
Defined.



(** * Further properties of the router *)

(** ** What the schemas accept *)

Lemma str_bounds_iff (lo hi : nat) (v : string) :
  z.str [z.min lo; z.max hi] v = true
  <-> (lo <= String.length v /\ String.length v <= hi)%nat.
Proof.
  unfold z.str, z.min, z.max. simpl.
  now rewrite andb_true_r, andb_true_iff, !Nat.leb_le.
Qed.

Lemma visibility_enum_iff (v : string) :
  z.enum Enums.ProjectVisibility.values v = true
  <-> v = Enums.ProjectVisibility.PUBLIC
      \/ v = Enums.ProjectVisibility.PRIVATE.
Proof.
  unfold z.enum, JS.includes. simpl.
  now rewrite orb_false_r, orb_true_iff, !String.eqb_eq.
Qed.

(** The schemas of [projectCreate] and [projectUpdate] accept exactly the
    inputs whose name has 3 to 50 units, whose description has 3 to 255
    units and whose visibility is PUBLIC or PRIVATE; the schema of
    [teamCreate] accepts exactly the inputs whose name has 3 to 50
    units, whatever the description. *)
Theorem schemas_accept_exactly :
  (forall i,
     ProjectCreate.schema i = []
     <-> (3 <= String.length (ProjectCreate.name i) <= 50)%nat
         /\ (3 <= String.length (ProjectCreate.description i) <= 255)%nat
         /\ (ProjectCreate.visibility i = "PUBLIC"
             \/ ProjectCreate.visibility i = "PRIVATE"))
  /\ (forall i,
        ProjectUpdate.schema i = []
        <-> (3 <= String.length (ProjectUpdate.name i) <= 50)%nat
            /\ (3 <= String.length (ProjectUpdate.description i) <= 255)%nat
            /\ (ProjectUpdate.visibility i = "PUBLIC"
                \/ ProjectUpdate.visibility i = "PRIVATE"))
  /\ (forall i,
        TeamCreate.schema i = []
        <-> (3 <= String.length (TeamCreate.name i) <= 50)%nat).
Proof.
  repeat apply conj; intros i.
  - unfold ProjectCreate.schema, z.object.
    rewrite <- !str_bounds_iff, <- visibility_enum_iff.
    destruct (z.str [z.min 3; z.max 50] _);
      destruct (z.str [z.min 3; z.max 255] _);
      destruct (z.enum _ _); simpl; intuition discriminate.
  - unfold ProjectUpdate.schema, z.object.
    rewrite <- !str_bounds_iff, <- visibility_enum_iff.
    destruct (z.str [z.min 3; z.max 50] _);
      destruct (z.str [z.min 3; z.max 255] _);
      destruct (z.enum _ _); simpl; intuition discriminate.
  - unfold TeamCreate.schema, z.object.
    rewrite <- str_bounds_iff.
    destruct (z.str [z.min 3; z.max 50] _);
      destruct (TeamCreate.description i); simpl; intuition discriminate.
Qed.

Lemma schemas_accept_exactly_witness :
  ProjectCreate.schema
    {| ProjectCreate.name := "abc"; ProjectCreate.description := "abc";
       ProjectCreate.teamId := ""; ProjectCreate.visibility := "PUBLIC" |}
  = []
  /\ (3 <= String.length
            (TeamCreate.name
               {| TeamCreate.name := "Platform";
                  TeamCreate.description := None |}) <= 50)%nat.
Proof.
  destruct schemas_accept_exactly as (Hc & _ & Ht). split.
  - apply Hc. simpl. repeat split; try lia. now left.
  - apply Ht. reflexivity.
Defined.

(** ** The visibility that [projectShow] returns, given back *)

Lemma toLowerCase_unit_not_P (c : ascii) :
  JS.toLowerCase_unit c <> "P"%char.
Proof.
  destruct c as [[] [] [] [] [] [] [] []]; vm_compute; discriminate.
Qed.

Lemma toLowerCase_not_visibility (v : string) :
  z.enum Enums.ProjectVisibility.values (JS.toLowerCase v) = false.
Proof.
  apply not_true_is_false'. rewrite visibility_enum_iff.
  destruct v as [|c v]; simpl.
  - intros [H | H]; discriminate H.
  - intros [H | H]; injection H as H _;
      now apply (toLowerCase_unit_not_P c).
Qed.

(** The visibility of a project that [projectShow] returns is not a
    visibility that [projectUpdate] or [projectCreate] accepts: an input
    that carries it is rejected by the schema, with "visibility" among
    the issues, and the store is left as it was. *)
Theorem shown_visibility_is_rejected newId user input s shown :
  fst (projectShow user input s) = Return shown ->
  (forall caller i s',
     ProjectUpdate.visibility i = Project.visibility shown ->
     exists issues, In "visibility" issues
       /\ projectUpdate caller i s' = (Throw (ValidationError issues), s'))
  /\ (forall caller i s',
        ProjectCreate.visibility i = Project.visibility shown ->
        exists issues, In "visibility" issues
          /\ projectCreate newId caller i s'
             = (Throw (ValidationError issues), s')).
Proof.
  intros Hshow.
  destruct (proj1 (proj2 (reads_filtered_by_membership user s))
              input shown Hshow) as (p & _ & _ & -> & _).
  simpl.
  assert (Hin : forall a b c, In "visibility"
            (z.object [a; b; c; z.key "visibility" false])).
  { intros a b c. unfold z.object. simpl. rewrite !in_app_iff. simpl. tauto. }
  split; intros caller i s' Hv.
  - assert (Hs : In "visibility" (ProjectUpdate.schema i)).
    { unfold ProjectUpdate.schema. rewrite Hv, toLowerCase_not_visibility.
      apply Hin. }
    exists (ProjectUpdate.schema i). split; [assumption|].
    apply protectedProcedure_invalid. intros E. now rewrite E in Hs.
  - assert (Hs : In "visibility" (ProjectCreate.schema i)).
    { unfold ProjectCreate.schema. rewrite Hv, toLowerCase_not_visibility.
      apply Hin. }
    exists (ProjectCreate.schema i). split; [assumption|].
    apply protectedProcedure_invalid. intros E. now rewrite E in Hs.
Qed.

Lemma shown_visibility_is_rejected_witness :
  let s := sample_store [member_row "U1" "P1" "Owner"] [] in
  exists issues, In "visibility" issues
    /\ projectUpdate U1
         {| ProjectUpdate.id := "P1"; ProjectUpdate.name := "Billing";
            ProjectUpdate.description := "Billing service";
            ProjectUpdate.visibility := "private" |} s
       = (Throw (ValidationError issues), s).
Proof.
  intros s.
  apply (shown_visibility_is_rejected sample_newId U1
           {| ProjectShow.id := "P1" |} s
           (Project.with_visibility P1 "private") eq_refl).
  reflexivity.
Defined.

(** ** Calls that write nothing *)

(** The five queries return the store as it was, whatever their input;
    and a mutation that throws, for whatever reason, returns the store
    as it was. *)
Theorem queries_and_refused_mutations_write_nothing
  newId ApiMethod ApiStatus user s :
  (forall i, snd (projectList user i s) = s)
  /\ (forall i, snd (projectShow user i s) = s)
  /\ snd (teamList user s) = s
  /\ (forall i, snd (teamShow user i s) = s)
  /\ (forall i, snd (apiList user i s) = s)
  /\ (forall i e, fst (projectCreate newId user i s) = Throw e ->
        snd (projectCreate newId user i s) = s)
  /\ (forall i e, fst (projectUpdate user i s) = Throw e ->
        snd (projectUpdate user i s) = s)
  /\ (forall i e, fst (projectDelete user i s) = Throw e ->
        snd (projectDelete user i s) = s)
  /\ (forall i e, fst (teamCreate newId user i s) = Throw e ->
        snd (teamCreate newId user i s) = s)
  /\ (forall i e,
        fst (apiCreate newId ApiMethod ApiStatus user i s) = Throw e ->
        snd (apiCreate newId ApiMethod ApiStatus user i s) = s).
Proof.
  repeat apply conj.
  - intros i. unfold projectList, protectedProcedure.
    now destruct (ProjectList.schema i).
  - intros i. unfold projectShow, protectedProcedure.
    destruct (ProjectShow.schema i); [|reflexivity].
    unfold projectShow_resolver. now destruct (prisma.project.findFirst _ s).
  - reflexivity.
  - intros i. unfold teamShow, protectedProcedure.
    destruct (TeamShow.schema i); [|reflexivity].
    unfold teamShow_resolver. now destruct (prisma.team.findFirst _ s).
  - intros i. unfold apiList, protectedProcedure.
    now destruct (ApiList.schema i).
  - intros i e. unfold projectCreate, protectedProcedure.
    destruct (ProjectCreate.schema i); [|reflexivity].
    unfold projectCreate_resolver, prisma.project.create. discriminate.
  - intros i e. unfold projectUpdate, protectedProcedure.
    destruct (ProjectUpdate.schema i); [|reflexivity].
    unfold projectUpdate_resolver, prisma.project.update.
    destruct (find _ (Store.projects s)); [discriminate | reflexivity].
  - intros i e. unfold projectDelete, protectedProcedure.
    destruct (ProjectDelete.schema i); [|reflexivity].
    unfold projectDelete_resolver, prisma.project.delete.
    destruct (find _ (Store.projects s)); [discriminate | reflexivity].
  - intros i e. unfold teamCreate, protectedProcedure.
    destruct (TeamCreate.schema i); [|reflexivity].
    unfold teamCreate_resolver, prisma.team.create. discriminate.
  - intros i e. unfold apiCreate, protectedProcedure.
    destruct (ApiCreate.schema _ _ i); [|reflexivity].
    unfold apiCreate_resolver.
    destruct (prisma.projectMember.findFirst _ s); [|reflexivity].
    destruct (negb _); [reflexivity|].
    unfold prisma.api.create. discriminate.
Qed.

Lemma queries_and_refused_mutations_write_nothing_witness :
  let s := sample_store [member_row "U2" "P1" "Member"] [] in
  snd (projectDelete U2 {| ProjectDelete.id := "P1" |} s) = s
  /\ snd (apiCreate sample_newId sample_ApiMethod sample_ApiStatus U2
            (sample_api_input "P1") s) = s.
Proof.
  intros s.
  destruct (queries_and_refused_mutations_write_nothing sample_newId
              sample_ApiMethod sample_ApiStatus U2 s)
    as (_ & _ & _ & _ & _ & _ & _ & Hd & _ & Ha).
  split.
  - apply (Hd _ NotFoundOrDenied). reflexivity.
  - apply (Ha _ (Error "Permission denied")). reflexivity.
Defined.

(** ** Memberships that a call can add *)

Lemma in_replace_first_key {A} (w : A -> bool) (data : A -> A) (l : list A) x :
  In x (prisma.replace_first w data l) ->
  In x l \/ exists y, In y l /\ w y = true /\ x = data y.
Proof.
  induction l as [|a l IH]; simpl; [tauto|].
  destruct (w a) eqn:Hw; simpl.
  - intros [<- | H]; [right; exists a; auto | auto].
  - intros [<- | H]; [auto|].
    destruct (IH H) as [H' | (y & Hy & Hwy & ->)]; [auto|].
    right. exists y. auto.
Qed.

(** A call of the router by [user] adds no membership of another
    identity and none with a role other than Owner, and it changes no
    membership row: every project or team membership row of the store
    after the call was a row of the store before it, or is a row of
    [user] with role Owner. *)
Theorem calls_add_only_owner_rows_of_the_caller
  newId ApiMethod ApiStatus user c s :
  (forall m,
     In m (Store.projectMembers (run newId ApiMethod ApiStatus user c s)) ->
     In m (Store.projectMembers s)
     \/ (ProjectMember.userId m = User.id user
         /\ ProjectMember.role m = Enums.Role.Owner))
  /\ (forall m,
        In m (Store.teamMembers (run newId ApiMethod ApiStatus user c s)) ->
        In m (Store.teamMembers s)
        \/ (TeamMember.userId m = User.id user
            /\ TeamMember.role m = Enums.Role.Owner)).
Proof.
  destruct c as [i | i | i | i | i | | i | i | i | i]; simpl.
  - unfold projectList, protectedProcedure.
    destruct (ProjectList.schema i); simpl; auto.
  - unfold projectCreate, protectedProcedure.
    destruct (ProjectCreate.schema i); simpl; auto.
    split; [|auto]. intros m Hm.
    apply in_app_iff in Hm as [Hm | [<- | []]]; auto.
  - unfold projectShow, protectedProcedure.
    destruct (ProjectShow.schema i); simpl; auto.
    unfold projectShow_resolver.
    destruct (prisma.project.findFirst _ s); simpl; auto.
  - unfold projectUpdate, protectedProcedure.
    destruct (ProjectUpdate.schema i); simpl; auto.
    unfold projectUpdate_resolver, prisma.project.update.
    destruct (find _ (Store.projects s)); simpl; auto.
  - unfold projectDelete, protectedProcedure.
    destruct (ProjectDelete.schema i); simpl; auto.
    unfold projectDelete_resolver, prisma.project.delete.
    destruct (find _ (Store.projects s)); simpl; auto.
  - auto.
  - unfold teamCreate, protectedProcedure.
    destruct (TeamCreate.schema i); simpl; auto.
    split; [auto|]. intros m Hm.
    apply in_app_iff in Hm as [Hm | [<- | []]]; auto.
  - unfold teamShow, protectedProcedure.
    destruct (TeamShow.schema i); simpl; auto.
    unfold teamShow_resolver.
    destruct (prisma.team.findFirst _ s); simpl; auto.
  - unfold apiList, protectedProcedure.
    destruct (ApiList.schema i); simpl; auto.
  - unfold apiCreate, protectedProcedure.
    destruct (ApiCreate.schema _ _ i); simpl; auto.
    unfold apiCreate_resolver.
    destruct (prisma.projectMember.findFirst _ s); simpl; auto.
    destruct (negb _); simpl; auto.
Qed.

Lemma calls_add_only_owner_rows_of_the_caller_witness :
  let s := sample_store [member_row "U1" "P1" "Owner"] [] in
  let s' :=
    run sample_newId sample_ApiMethod sample_ApiStatus U2
      (call_projectCreate
         {| ProjectCreate.name := "Ledger";
            ProjectCreate.description := "Ledger service";
            ProjectCreate.teamId := "T1";
            ProjectCreate.visibility := "PUBLIC" |}) s in
  In (member_row "U2" "ccc" "Owner") (Store.projectMembers s')
  /\ (In (member_row "U2" "ccc" "Owner") (Store.projectMembers s)
      \/ ProjectMember.userId (member_row "U2" "ccc" "Owner") = User.id U2
         /\ ProjectMember.role (member_row "U2" "ccc" "Owner")
            = Enums.Role.Owner).
Proof.
  intros s s'.
  assert (Hin : In (member_row "U2" "ccc" "Owner") (Store.projectMembers s')).
  { simpl. auto. }
  split; [exact Hin|].
  exact (proj1 (calls_add_only_owner_rows_of_the_caller sample_newId
                  sample_ApiMethod sample_ApiStatus U2 _ s) _ Hin).
Defined.

(** ** What the lists contain *)

(** Without a name or visibility filter, [projectList] returns exactly
    the stored projects of the team of which the caller is a member;
    [teamList] returns exactly the stored teams of which the caller is a
    member; and [apiList], for a [projectId] that is not empty and
    without a name filter, returns exactly the stored APIs of that
    project, whoever the caller is. *)
Theorem lists_are_exact user s :
  (forall teamId p,
     (exists l,
        fst (projectList user
               {| ProjectList.name := None; ProjectList.teamId := teamId;
                  ProjectList.visibility := None |} s) = Return l
        /\ In p l)
     <-> In p (Store.projects s)
         /\ Project.teamId p = teamId
         /\ project_member s (User.id user) (Project.id p))
  /\ (forall t,
        (exists l, fst (teamList user s) = Return l /\ In t l)
        <-> In t (Store.teams s)
            /\ team_member s (User.id user) (Team.id t))
  /\ (forall projectId a,
        projectId <> "" ->
        (exists l,
           fst (apiList user
                  {| ApiList.name := None; ApiList.projectId := projectId |}
                  s) = Return l
           /\ In a l)
        <-> In a (Store.apis s) /\ Api.projectId a = projectId).
Proof.
  repeat apply conj.
  - intros teamId p. unfold projectList.
    rewrite protectedProcedure_valid by reflexivity.
    unfold projectList_resolver, prisma.project.findMany. simpl. split.
    + intros (l & [= <-] & Hp). apply filter_In in Hp as [Hin Hp].
      rewrite !andb_true_iff in Hp. destruct Hp as [[Ht _] Hm].
      apply String.eqb_eq in Ht.
      now apply project_members_some_user in Hm.
    + intros (Hin & Ht & Hm). eexists. split; [reflexivity|].
      apply filter_In. split; [assumption|].
      rewrite !andb_true_iff. repeat split.
      * now apply String.eqb_eq.
      * now apply project_members_some_user.
  - intros t. unfold teamList, prisma.team.findMany. simpl. split.
    + intros (l & [= <-] & Hp). apply filter_In in Hp as [Hin Hm].
      now apply team_members_some_user in Hm.
    + intros (Hin & Hm). eexists. split; [reflexivity|].
      apply filter_In. split; [assumption|].
      now apply team_members_some_user.
  - intros projectId a Hne. unfold apiList.
    rewrite protectedProcedure_valid.
    2:{ unfold ApiList.schema, z.object, z.str, z.min. simpl.
        destruct projectId; [congruence | reflexivity]. }
    unfold apiList_resolver, prisma.api.findMany. simpl. split.
    + intros (l & [= <-] & Hp). apply filter_In in Hp as [Hin Hp].
      split; [assumption|]. now apply String.eqb_eq.
    + intros (Hin & Hp). eexists. split; [reflexivity|].
      apply filter_In. split; [assumption|]. now apply String.eqb_eq.
Qed.

Lemma lists_are_exact_witness :
  let s := sample_store [member_row "U1" "P1" "Owner"] [A1] in
  exists l,
    fst (apiList U2 {| ApiList.name := None; ApiList.projectId := "P1" |} s)
    = Return l
    /\ In A1 l.
Proof.
  intros s.
  apply (proj2 (proj2 (lists_are_exact U2 s)) "P1" A1).
  - discriminate.
  - split; [simpl; auto | reflexivity].
Defined.

(** The name and visibility filters of [projectList] only narrow its
    result: every project it returns belongs to the team of the input,
    has the visibility of the input when one is given, and is also
    returned for the same team without those filters. *)
Theorem projectList_filters_narrow user input s l p :
  fst (projectList user input s) = Return l ->
  In p l ->
  Project.teamId p = ProjectList.teamId input
  /\ (forall v, ProjectList.visibility input = Some v ->
        Project.visibility p = v)
  /\ exists l0,
       fst (projectList user
              {| ProjectList.name := None;
                 ProjectList.teamId := ProjectList.teamId input;
                 ProjectList.visibility := None |} s) = Return l0
       /\ In p l0.
Proof.
  intros Hl Hp.
  assert (Hf : In p (Store.projects s)
               /\ (Where.contains (ProjectList.name input)
                     (Some (Project.name p))
                   && (Project.teamId p =? ProjectList.teamId input)
                   && Where.equals (ProjectList.visibility input)
                        (Project.visibility p)
                   && prisma.project.members_some s
                        (fun m => ProjectMember.userId m =? User.id user) p)
                  = true).
  { revert Hl. unfold projectList, protectedProcedure.
    destruct (ProjectList.schema input); [|discriminate].
    unfold projectList_resolver, prisma.project.findMany. simpl.
    intros [= <-]. now apply filter_In in Hp. }
  destruct Hf as [Hin Hf]. rewrite !andb_true_iff in Hf.
  destruct Hf as [[[_ Ht] Hv] Hm]. apply String.eqb_eq in Ht.
  repeat apply conj.
  - exact Ht.
  - intros v E. rewrite E in Hv. now apply String.eqb_eq in Hv.
  - unfold projectList. rewrite protectedProcedure_valid by reflexivity.
    eexists. split; [reflexivity|].
    unfold prisma.project.findMany. apply filter_In. split; [assumption|].
    cbn [ProjectList.name ProjectList.teamId ProjectList.visibility
         Where.contains Where.equals].
    rewrite Ht, String.eqb_refl. now rewrite Hm.
Qed.

Lemma projectList_filters_narrow_witness :
  let s := sample_store
             [member_row "U1" "P1" "Owner"; member_row "U1" "P2" "Owner"]
             [] in
  Project.teamId P1 = "T1"
  /\ (forall v, Some "PRIVATE" = Some v -> Project.visibility P1 = v)
  /\ exists l0,
       fst (projectList U1
              {| ProjectList.name := None; ProjectList.teamId := "T1";
                 ProjectList.visibility := None |} s) = Return l0
       /\ In P1 l0.
Proof.
  intros s.
  apply (projectList_filters_narrow U1
           {| ProjectList.name := Some "ill"; ProjectList.teamId := "T1";
              ProjectList.visibility := Some "PRIVATE" |} s [P1] P1).
  - reflexivity.
  - simpl. auto.
Defined.

(** ** Updates by an owner *)

Lemma find_replace_first {A} (w : A -> bool) (data : A -> A) (l : list A) :
  (forall x, w (data x) = w x) ->
  find w (prisma.replace_first w data l) = option_map data (find w l).
Proof.
  intros H. induction l as [|a l IH]; simpl; [reflexivity|].
  destruct (w a) eqn:Hw; simpl.
  - now rewrite H, Hw.
  - now rewrite Hw.
Qed.

Lemma replace_first_twice {A} (w : A -> bool) (data : A -> A) (l : list A) :
  (forall x, w (data x) = w x) ->
  (forall x, data (data x) = data x) ->
  prisma.replace_first w data (prisma.replace_first w data l)
  = prisma.replace_first w data l.
Proof.
  intros Hw Hd. induction l as [|a l IH]; simpl; [reflexivity|].
  destruct (w a) eqn:E; simpl.
  - now rewrite Hw, E, Hd.
  - now rewrite E, IH.
Qed.

Lemma in_replace_first_found {A} (w : A -> bool) (data : A -> A)
  (l : list A) (x : A) :
  find w l = Some x -> In (data x) (prisma.replace_first w data l).
Proof.
  induction l as [|a l IH]; simpl; [discriminate|].
  destruct (w a); simpl.
  - intros [= <-]. now left.
  - intros H. right. now apply IH.
Qed.

Lemma in_replace_first_other {A} (w : A -> bool) (data : A -> A)
  (l : list A) (x : A) :
  In x l -> w x = false -> In x (prisma.replace_first w data l).
Proof.
  induction l as [|a l IH]; simpl; [tauto|].
  intros [-> | Hin] Hw.
  - rewrite Hw. now left.
  - destruct (w a); simpl; auto.
Qed.

Lemma in_remove_first {A} (w : A -> bool) (l : list A) (x : A) :
  In x (prisma.remove_first w l) -> In x l.
Proof.
  induction l as [|a l IH]; simpl; [tauto|].
  destruct (w a); simpl; tauto.
Qed.

(** The row that the [where] clause of [projectUpdate] selects for an
    owner of a stored project. *)
Lemma owner_where_finds user id s p :
  NoDup (map Project.id (Store.projects s)) ->
  In p (Store.projects s) ->
  Project.id p = id ->
  project_owner s (User.id user) id ->
  find
    (fun q =>
       (Project.id q =? id)
       && prisma.project.members_some s
            (fun m =>
               (ProjectMember.userId m =? User.id user)
               && (ProjectMember.role m =? Enums.Role.Owner)) q)
    (Store.projects s)
  = Some p.
Proof.
  intros Hnd Hin Hid Ho.
  apply (find_unique_id Project.id); try assumption.
  - rewrite Hid, String.eqb_refl. simpl.
    apply project_members_some_owner. now rewrite Hid.
  - intros q Hq. apply andb_true_iff in Hq as [Hq _].
    apply String.eqb_eq in Hq. congruence.
Qed.

(** An owner of a stored project updates it: [projectUpdate] on an
    input that parses returns [true]; the row keeps its [id] and its
    team and takes the name, description and visibility of the input;
    every other project row and every membership, team and API row stays
    as it was; and [projectShow] then returns the updated row. *)
Theorem projectUpdate_by_owner user input s p :
  ProjectUpdate.schema input = [] ->
  NoDup (map Project.id (Store.projects s)) ->
  In p (Store.projects s) ->
  Project.id p = ProjectUpdate.id input ->
  project_owner s (User.id user) (ProjectUpdate.id input) ->
  exists s',
    projectUpdate user input s = (Return true, s')
    /\ In {| Project.id := Project.id p;
             Project.name := ProjectUpdate.name input;
             Project.description := ProjectUpdate.description input;
             Project.teamId := Project.teamId p;
             Project.visibility := ProjectUpdate.visibility input |}
          (Store.projects s')
    /\ map Project.id (Store.projects s') = map Project.id (Store.projects s)
    /\ (forall q, In q (Store.projects s) ->
          Project.id q <> ProjectUpdate.id input -> In q (Store.projects s'))
    /\ Store.projectMembers s' = Store.projectMembers s
    /\ Store.teams s' = Store.teams s
    /\ Store.teamMembers s' = Store.teamMembers s
    /\ Store.apis s' = Store.apis s
    /\ projectShow user {| ProjectShow.id := ProjectUpdate.id input |} s'
       = (Return
            {| Project.id := Project.id p;
               Project.name := ProjectUpdate.name input;
               Project.description := ProjectUpdate.description input;
               Project.teamId := Project.teamId p;
               Project.visibility :=
                 JS.toLowerCase (ProjectUpdate.visibility input) |},
          s').
Proof.
  intros Hv Hnd Hin Hid Ho.
  pose proof (owner_where_finds user _ s p Hnd Hin Hid Ho) as Hf.
  unfold projectUpdate. rewrite protectedProcedure_valid by assumption.
  unfold projectUpdate_resolver, prisma.project.update. rewrite Hf.
  set (data := fun q : Project.t =>
                 {| Project.id := Project.id q;
                    Project.name := ProjectUpdate.name input;
                    Project.description := ProjectUpdate.description input;
                    Project.teamId := Project.teamId q;
                    Project.visibility := ProjectUpdate.visibility input |}).
  eexists. split; [reflexivity|]. cbn [Store.projects Store.projectMembers
    Store.teams Store.teamMembers Store.apis].
  split; [exact (in_replace_first_found _ data _ p Hf)|].
  split; [now apply map_replace_first|].
  split.
  { intros q Hq Hne. apply in_replace_first_other; [assumption|].
    apply andb_false_iff. left. now apply String.eqb_neq. }
  repeat (split; [reflexivity|]).
  unfold projectShow. rewrite protectedProcedure_valid by reflexivity.
  unfold projectShow_resolver, prisma.project.findFirst.
  cbn [Store.projects ProjectShow.id].
  rewrite (find_unique_id Project.id _ _ (data p)).
  - reflexivity.
  - now rewrite map_replace_first.
  - exact (in_replace_first_found _ data _ p Hf).
  - cbn [data Project.id]. rewrite Hid, String.eqb_refl. simpl.
    apply project_members_some_user.
    change (Project.id (data p)) with (Project.id p). rewrite Hid.
    destruct Ho as (m & Hm & Hu & Hp & _). exists m. auto.
  - intros q Hq. apply andb_true_iff in Hq as [Hq _].
    apply String.eqb_eq in Hq. cbn [data Project.id]. congruence.
Qed.

Lemma projectUpdate_by_owner_witness :
  let s := sample_store
             [member_row "U1" "P1" "Owner"; member_row "U2" "P1" "Member"]
             [] in
  let input :=
    {| ProjectUpdate.id := "P1"; ProjectUpdate.name := "Ledger";
       ProjectUpdate.description := "Ledger service";
       ProjectUpdate.visibility := "PUBLIC" |} in
  exists s',
    projectUpdate U1 input s = (Return true, s')
    /\ projectShow U1 {| ProjectShow.id := "P1" |} s'
       = (Return
            {| Project.id := "P1"; Project.name := "Ledger";
               Project.description := "Ledger service";
               Project.teamId := "T1"; Project.visibility := "public" |},
          s').
Proof.
  intros s input.
  destruct (projectUpdate_by_owner U1 input s P1) as (s' & Hu & H).
  - reflexivity.
  - simpl. repeat constructor; simpl; intuition discriminate.
  - simpl. auto.
  - reflexivity.
  - exists (member_row "U1" "P1" "Owner"). simpl. auto.
  - exists s'. split; [exact Hu | apply H].
Defined.

(** [projectUpdate] is idempotent: a second call with the same input by
    the same caller has the outcome of the first and leaves the store
    that the first call left. *)
Theorem projectUpdate_idempotent user input s :
  projectUpdate user input (snd (projectUpdate user input s))
  = projectUpdate user input s.
Proof.
  unfold projectUpdate, protectedProcedure.
  destruct (ProjectUpdate.schema input) eqn:Hs; simpl; [|reflexivity].
  unfold projectUpdate_resolver, prisma.project.update,
    prisma.project.members_some.
  destruct (find _ (Store.projects s)) as [p|] eqn:Hf.
  - cbn [snd Store.projects Store.projectMembers Store.teams
         Store.teamMembers Store.apis].
    rewrite find_replace_first by reflexivity. rewrite Hf. cbn [option_map].
    now rewrite replace_first_twice by reflexivity.
  - cbn [snd]. now rewrite Hf.
Qed.

(** ** APIs created and listed *)

Lemma apiList_schema_nonempty name projectId :
  projectId <> "" ->
  ApiList.schema {| ApiList.name := name; ApiList.projectId := projectId |}
  = [].
Proof.
  intros H. unfold ApiList.schema, z.object, z.str, z.min. simpl.
  destruct name; destruct projectId; simpl; congruence.
Qed.

(** An API that [apiCreate] creates carries the fields of the input as
    they are, and, when its [projectId] is not empty, [apiList] for that
    [projectId] returns it to every caller. *)
Theorem apiCreate_then_apiList newId ApiMethod ApiStatus user input s m :
  ApiCreate.schema ApiMethod ApiStatus input = [] ->
  prisma.projectMember.findFirst
    (fun m => ProjectMember.userId m =? User.id user) s = Some m ->
  ProjectMember.role m = Enums.Role.Owner
  \/ ProjectMember.role m = Enums.Role.Maintainer ->
  ApiCreate.projectId input <> "" ->
  exists api s',
    apiCreate newId ApiMethod ApiStatus user input s = (Return api, s')
    /\ Api.id api = newId (map Api.id (Store.apis s))
    /\ Api.name api = ApiCreate.name input
    /\ Api.description api = ApiCreate.description input
    /\ Api.endpoint api = ApiCreate.endpoint input
    /\ Api.method api = ApiCreate.method input
    /\ Api.preRequestScript api = ApiCreate.preRequestScript input
    /\ Api.postResponseScript api = ApiCreate.postResponseScript input
    /\ Api.tags api = ApiCreate.tags input
    /\ Api.versions api = ApiCreate.versions input
    /\ Api.order api = ApiCreate.order input
    /\ Api.status api = ApiCreate.status input
    /\ Api.projectId api = ApiCreate.projectId input
    /\ (forall caller, exists l,
          apiList caller
            {| ApiList.name := None;
               ApiList.projectId := ApiCreate.projectId input |} s'
          = (Return l, s')
          /\ In api l).
Proof.
  intros Hv Hf Hr Hne.
  rewrite (apiCreate_consulted_allows _ _ _ _ _ _ m Hv Hf Hr).
  unfold prisma.api.create. cbn [fst snd].
  eexists _, _. split; [reflexivity|].
  cbn [Api.id Api.name Api.description Api.endpoint Api.method
       Api.preRequestScript Api.postResponseScript Api.tags Api.versions
       Api.order Api.status Api.projectId].
  repeat (split; [reflexivity|]).
  intros caller. unfold apiList.
  rewrite protectedProcedure_valid by now apply apiList_schema_nonempty.
  unfold apiList_resolver, prisma.api.findMany.
  eexists. split; [reflexivity|].
  apply filter_In. cbn [Store.apis]. split.
  - apply in_or_app. right. now left.
  - cbn [ApiList.name ApiList.projectId Api.name Api.projectId Where.contains].
    now rewrite String.eqb_refl.
Qed.

Lemma apiCreate_then_apiList_witness :
  let s := sample_store [member_row "U1" "P1" "Owner"] [A1] in
  exists api s',
    apiCreate sample_newId sample_ApiMethod sample_ApiStatus U1
      (sample_api_input "P1") s = (Return api, s')
    /\ Api.endpoint api = "/invoices"
    /\ exists l,
         apiList U2 {| ApiList.name := None; ApiList.projectId := "P1" |} s'
         = (Return l, s')
         /\ In api l.
Proof.
  intros s.
  destruct (apiCreate_then_apiList sample_newId sample_ApiMethod
              sample_ApiStatus U1 (sample_api_input "P1") s
              (member_row "U1" "P1" "Owner") eq_refl eq_refl)
    as (api & s' & Hc & _ & _ & _ & He & _ & _ & _ & _ & _ & _ & _ & _ & Hl).
  - now left.
  - discriminate.
  - exists api, s'. repeat split; [exact Hc | exact He | apply Hl].
Defined.

(** ** Entities read back by their creator and by others *)

Lemma run_roles_owner newId ApiMethod ApiStatus user c s :
  (forall m, In m (Store.projectMembers s) ->
     ProjectMember.role m = Enums.Role.Owner) ->
  forall m,
    In m (Store.projectMembers (run newId ApiMethod ApiStatus user c s)) ->
    ProjectMember.role m = Enums.Role.Owner.
Proof.
  intros H. destruct c as [i | i | i | i | i | | i | i | i | i]; simpl.
  - unfold projectList, protectedProcedure.
    destruct (ProjectList.schema i); exact H.
  - unfold projectCreate, protectedProcedure.
    destruct (ProjectCreate.schema i); [|exact H].
    unfold projectCreate_resolver, prisma.project.create.
    cbn [snd Store.projectMembers]. intros m Hm.
    apply in_app_iff in Hm as [Hm | [<- | []]]; [now apply H | reflexivity].
  - unfold projectShow, protectedProcedure.
    destruct (ProjectShow.schema i); [|exact H].
    unfold projectShow_resolver.
    destruct (prisma.project.findFirst _ s); exact H.
  - unfold projectUpdate, protectedProcedure.
    destruct (ProjectUpdate.schema i); [|exact H].
    unfold projectUpdate_resolver, prisma.project.update.
    destruct (find _ (Store.projects s)); exact H.
  - unfold projectDelete, protectedProcedure.
    destruct (ProjectDelete.schema i); [|exact H].
    unfold projectDelete_resolver, prisma.project.delete.
    destruct (find _ (Store.projects s)); exact H.
  - exact H.
  - unfold teamCreate, protectedProcedure.
    destruct (TeamCreate.schema i); exact H.
  - unfold teamShow, protectedProcedure.
    destruct (TeamShow.schema i); [|exact H].
    unfold teamShow_resolver.
    destruct (prisma.team.findFirst _ s); exact H.
  - unfold apiList, protectedProcedure.
    destruct (ApiList.schema i); exact H.
  - unfold apiCreate, protectedProcedure.
    destruct (ApiCreate.schema _ _ i); [|exact H].
    unfold apiCreate_resolver.
    destruct (prisma.projectMember.findFirst _ s); [|exact H].
    destruct (negb _); exact H.
Qed.

Lemma reachable_roles_owner newId ApiMethod ApiStatus s :
  reachable newId ApiMethod ApiStatus s ->
  forall m, In m (Store.projectMembers s) ->
    ProjectMember.role m = Enums.Role.Owner.
Proof.
  induction 1 as [|user c s _ IH].
  - intros m [].
  - now apply run_roles_owner.
Qed.

Section Composition.

Variable newId : list string -> string.
Variable ApiMethod : list string.
Variable ApiStatus : list string.

Hypothesis newId_fresh : forall used, ~ In (newId used) used.

(** After [teamCreate] on an input that parses, the team carries the
    name and the description of the input, [teamShow] by the creator
    with its [id] returns it as it was created, and it is in the
    [teamList] of the creator. *)
Theorem teamCreate_then_teamShow_teamList user input s :
  TeamCreate.schema input = [] ->
  exists t s',
    teamCreate newId user input s = (Return t, s')
    /\ Team.name t = TeamCreate.name input
    /\ Team.description t = TeamCreate.description input
    /\ teamShow user {| TeamShow.id := Team.id t |} s' = (Return t, s')
    /\ exists l, teamList user s' = (Return l, s') /\ In t l.
Proof.
  intros Hv. unfold teamCreate.
  rewrite protectedProcedure_valid by assumption.
  unfold teamCreate_resolver, prisma.team.create.
  eexists _, _. split; [reflexivity|].
  cbn [Team.name Team.description Team.id].
  split; [reflexivity|]. split; [reflexivity|].
  assert (Hm : forall t', Team.id t' = newId (map Team.id (Store.teams s)) ->
            prisma.team.members_some
              {| Store.teams :=
                   Store.teams s ++
                   [ {| Team.id := newId (map Team.id (Store.teams s));
                        Team.name := TeamCreate.name input;
                        Team.description := TeamCreate.description input |} ];
                 Store.teamMembers :=
                   Store.teamMembers s ++
                   [ {| TeamMember.userId := User.id user;
                        TeamMember.teamId :=
                          newId (map Team.id (Store.teams s));
                        TeamMember.role := Enums.Role.Owner |} ];
                 Store.projects := Store.projects s;
                 Store.projectMembers := Store.projectMembers s;
                 Store.apis := Store.apis s |}
              (fun m => TeamMember.userId m =? User.id user) t' = true).
  { intros t' Ht. apply team_members_some_user. eexists. split.
    - cbn [Store.teamMembers]. apply in_or_app. right. left. reflexivity.
    - split; [reflexivity | now rewrite Ht]. }
  split.
  - unfold teamShow. rewrite protectedProcedure_valid by reflexivity.
    unfold teamShow_resolver, prisma.team.findFirst.
    cbn [Store.teams TeamShow.id].
    rewrite find_app_no_match.
    + cbn [find Team.id]. rewrite String.eqb_refl.
      now rewrite Hm.
    + intros q Hq. apply andb_false_iff. left. apply String.eqb_neq.
      intros E. apply (newId_fresh (map Team.id (Store.teams s))).
      rewrite <- E. now apply in_map.
  - eexists. split; [reflexivity|]. unfold prisma.team.findMany.
    apply filter_In. cbn [Store.teams]. split.
    + apply in_or_app. right. now left.
    + now apply Hm.
Qed.

(** After [projectCreate] on an input that parses, in a store whose
    membership rows are all of stored projects: the project is in the
    [projectList] of the creator for the team of the input, whether or
    not the creator is a member of that team; and for every other
    identity [projectShow] of it is refused and no [projectList]
    returns it. *)
Theorem projectCreate_then_reads user input s :
  ProjectCreate.schema input = [] ->
  (forall m, In m (Store.projectMembers s) ->
     project_exists s (ProjectMember.projectId m)) ->
  exists p s',
    projectCreate newId user input s = (Return p, s')
    /\ (exists l,
          projectList user
            {| ProjectList.name := None;
               ProjectList.teamId := ProjectCreate.teamId input;
               ProjectList.visibility := None |} s'
          = (Return l, s')
          /\ In p l)
    /\ (forall other,
          User.id other <> User.id user ->
          projectShow other {| ProjectShow.id := Project.id p |} s'
          = (Throw NotFoundOrDenied, s')
          /\ forall i l,
               fst (projectList other i s') = Return l -> ~ In p l).
Proof.
  intros Hv Hrefs. unfold projectCreate.
  rewrite protectedProcedure_valid by assumption.
  unfold projectCreate_resolver, prisma.project.create.
  eexists _, _. split; [reflexivity|].
  set (nid := newId (map Project.id (Store.projects s))).
  set (p := {| Project.id := nid; Project.name := ProjectCreate.name input;
               Project.description := ProjectCreate.description input;
               Project.teamId := ProjectCreate.teamId input;
               Project.visibility := ProjectCreate.visibility input |}).
  set (s' := {| Store.teams := Store.teams s;
                Store.teamMembers := Store.teamMembers s;
                Store.projects := Store.projects s ++ [p];
                Store.projectMembers :=
                  Store.projectMembers s ++
                  [ {| ProjectMember.userId := User.id user;
                       ProjectMember.projectId := Project.id p;
                       ProjectMember.role := Enums.Role.Owner |} ];
                Store.apis := Store.apis s |}).
  assert (Hmine : project_member s' (User.id user) nid).
  { eexists. split; [apply in_or_app; right; left; reflexivity|].
    split; reflexivity. }
  assert (Hothers : forall other, User.id other <> User.id user ->
            ~ project_member s' (User.id other) nid).
  { intros other Hne (m & Hm & Hu & Hp).
    apply in_app_iff in Hm as [Hm | [<- | []]].
    - apply (newId_fresh (map Project.id (Store.projects s))).
      fold nid. rewrite <- Hp. now apply Hrefs.
    - apply Hne. now rewrite <- Hu. }
  split.
  - unfold projectList. rewrite protectedProcedure_valid by reflexivity.
    eexists. split; [reflexivity|].
    unfold prisma.project.findMany. apply filter_In. split.
    + apply in_or_app. right. now left.
    + cbn [ProjectList.name ProjectList.teamId ProjectList.visibility
           Where.contains Where.equals Project.teamId p].
      rewrite String.eqb_refl.
      now rewrite (proj2 (project_members_some_user s' (User.id user) p)).
  - intros other Hne. split.
    + apply projectShow_denied. intros [_ H]. now apply (Hothers other Hne).
    + intros i l Hl Hp. apply (Hothers other Hne).
      exact (proj2 (proj1 (reads_filtered_by_membership other s') i l Hl p Hp)).
Qed.

(** In a store that calls of the router reach from the empty store,
    every project membership row has role Owner, so [apiCreate] on an
    input that parses is never refused with "Permission denied": it
    creates the API when the caller holds a project membership row, and
    answers "Project not found" when the caller holds none. *)
Theorem reachable_apiCreate_never_permission_denied user input s :
  reachable newId ApiMethod ApiStatus s ->
  ApiCreate.schema ApiMethod ApiStatus input = [] ->
  (forall m, In m (Store.projectMembers s) ->
     ProjectMember.role m = Enums.Role.Owner)
  /\ ((exists m, In m (Store.projectMembers s)
         /\ ProjectMember.userId m = User.id user) ->
      exists api s',
        apiCreate newId ApiMethod ApiStatus user input s = (Return api, s'))
  /\ ((forall m, In m (Store.projectMembers s) ->
         ProjectMember.userId m <> User.id user) ->
      apiCreate newId ApiMethod ApiStatus user input s
      = (Throw (Error "Project not found"), s))
  /\ fst (apiCreate newId ApiMethod ApiStatus user input s)
     <> Throw (Error "Permission denied").
Proof using newId_fresh.
  intros Hr Hv.
  pose proof (reachable_roles_owner newId ApiMethod ApiStatus s Hr)
    as Hroles.
  assert (Hallow : forall m,
            prisma.projectMember.findFirst
              (fun m => ProjectMember.userId m =? User.id user) s = Some m ->
            apiCreate newId ApiMethod ApiStatus user input s
            = (Return (fst (prisma.api.create newId input s)),
               snd (prisma.api.create newId input s))).
  { intros m Hf. apply apiCreate_consulted_allows with (m := m);
      try assumption.
    left. apply Hroles. now apply find_some in Hf. }
  repeat apply conj.
  - exact Hroles.
  - intros (m & Hm & Hu).
    destruct (find_some_of_exists
                (fun m => ProjectMember.userId m =? User.id user)
                (Store.projectMembers s)) as (m' & Hf & _).
    { exists m. split; [assumption | now apply String.eqb_eq]. }
    rewrite (Hallow m' Hf). eauto.
  - now apply apiCreate_no_row.
  - destruct (prisma.projectMember.findFirst
                (fun m => ProjectMember.userId m =? User.id user) s)
      as [m|] eqn:Hf.
    + rewrite (Hallow m eq_refl). discriminate.
    + rewrite apiCreate_no_row; [discriminate | assumption |].
      intros m Hm. apply String.eqb_neq.
      exact (find_none _ _ Hf m Hm).
Qed.

End Composition.

Lemma teamCreate_then_teamShow_teamList_witness :
  let input :=
    {| TeamCreate.name := "Payments"; TeamCreate.description := Some "" |} in
  let s := sample_store [member_row "U1" "P1" "Owner"] [] in
  exists t s',
    teamCreate sample_newId U2 input s = (Return t, s')
    /\ Team.name t = "Payments"
    /\ teamShow U2 {| TeamShow.id := Team.id t |} s' = (Return t, s').
Proof.
  intros input s.
  destruct (teamCreate_then_teamShow_teamList sample_newId
              sample_newId_fresh U2 input s eq_refl)
    as (t & s' & Hc & Hn & _ & Hs & _).
  exists t, s'. repeat split; assumption.
Defined.

Lemma projectCreate_then_reads_witness :
  let input :=
    {| ProjectCreate.name := "Ledger";
       ProjectCreate.description := "Ledger service";
       ProjectCreate.teamId := "T1";
       ProjectCreate.visibility := "PRIVATE" |} in
  let s := sample_store [member_row "U1" "P1" "Owner"] [] in
  exists p s',
    projectCreate sample_newId U2 input s = (Return p, s')
    /\ projectShow U1 {| ProjectShow.id := Project.id p |} s'
       = (Throw NotFoundOrDenied, s').
Proof.
  intros input s.
  destruct (projectCreate_then_reads sample_newId sample_newId_fresh
              U2 input s eq_refl) as (p & s' & Hc & _ & Ho).
  - intros m [<- | []]. unfold project_exists. simpl. auto.
  - exists p, s'. split; [exact Hc|]. apply Ho. discriminate.
Defined.

Lemma reachable_apiCreate_never_permission_denied_witness :
  let s :=
    run sample_newId sample_ApiMethod sample_ApiStatus U1
      (call_projectCreate
         {| ProjectCreate.name := "Ledger";
            ProjectCreate.description := "Ledger service";
            ProjectCreate.teamId := "T1";
            ProjectCreate.visibility := "PRIVATE" |})
      Store.empty in
  (exists api s',
     apiCreate sample_newId sample_ApiMethod sample_ApiStatus U1
       (sample_api_input "c") s = (Return api, s'))
  /\ apiCreate sample_newId sample_ApiMethod sample_ApiStatus U2
       (sample_api_input "c") s
     = (Throw (Error "Project not found"), s).
Proof.
  intros s.
  assert (Hr : reachable sample_newId sample_ApiMethod sample_ApiStatus s).
  { apply reachable_run. apply reachable_empty. }
  split.
  - apply (reachable_apiCreate_never_permission_denied sample_newId
             sample_ApiMethod sample_ApiStatus sample_newId_fresh
             U1 (sample_api_input "c") s Hr eq_refl).
    exists (member_row "U1" "c" "Owner"). simpl. auto.
  - apply (reachable_apiCreate_never_permission_denied sample_newId
             sample_ApiMethod sample_ApiStatus sample_newId_fresh
             U2 (sample_api_input "c") s Hr eq_refl).
    intros m [<- | []]. discriminate.
Defined.

(** ** Stored rows stay within the bounds of the schemas *)

Lemma projectCreate_schema_bounds i :
  ProjectCreate.schema i = [] ->
  (3 <= String.length (ProjectCreate.name i) <= 50)%nat
  /\ (3 <= String.length (ProjectCreate.description i) <= 255)%nat
  /\ (ProjectCreate.visibility i = Enums.ProjectVisibility.PUBLIC
      \/ ProjectCreate.visibility i = Enums.ProjectVisibility.PRIVATE).
Proof.
  unfold ProjectCreate.schema, z.object.
  rewrite <- !str_bounds_iff, <- visibility_enum_iff.
  destruct (z.str [z.min 3; z.max 50] _);
    destruct (z.str [z.min 3; z.max 255] _);
    destruct (z.enum _ _); simpl; intuition discriminate.
Qed.

Lemma projectUpdate_schema_bounds i :
  ProjectUpdate.schema i = [] ->
  (3 <= String.length (ProjectUpdate.name i) <= 50)%nat
  /\ (3 <= String.length (ProjectUpdate.description i) <= 255)%nat
  /\ (ProjectUpdate.visibility i = Enums.ProjectVisibility.PUBLIC
      \/ ProjectUpdate.visibility i = Enums.ProjectVisibility.PRIVATE).
Proof.
  unfold ProjectUpdate.schema, z.object.
  rewrite <- !str_bounds_iff, <- visibility_enum_iff.
  destruct (z.str [z.min 3; z.max 50] _);
    destruct (z.str [z.min 3; z.max 255] _);
    destruct (z.enum _ _); simpl; intuition discriminate.
Qed.

Lemma teamCreate_schema_bounds i :
  TeamCreate.schema i = [] ->
  (3 <= String.length (TeamCreate.name i) <= 50)%nat.
Proof.
  unfold TeamCreate.schema, z.object. rewrite <- str_bounds_iff.
  destruct (z.str [z.min 3; z.max 50] _); [reflexivity | discriminate].
Qed.

Lemma run_within_bounds newId ApiMethod ApiStatus user c s :
  within_bounds s -> within_bounds (run newId ApiMethod ApiStatus user c s).
Proof.
  intros H. destruct c as [i | i | i | i | i | | i | i | i | i]; simpl.
  - unfold projectList, protectedProcedure.
    destruct (ProjectList.schema i); exact H.
  - unfold projectCreate, protectedProcedure.
    destruct (ProjectCreate.schema i) eqn:Hv; [|exact H].
    apply projectCreate_schema_bounds in Hv.
    destruct H as [Hp Ht]. split; [|exact Ht].
    simpl. intros p Hin.
    apply in_app_iff in Hin as [Hin | [<- | []]]; [now apply Hp | exact Hv].
  - unfold projectShow, protectedProcedure.
    destruct (ProjectShow.schema i); [|exact H].
    unfold projectShow_resolver.
    destruct (prisma.project.findFirst _ s); exact H.
  - unfold projectUpdate, protectedProcedure.
    destruct (ProjectUpdate.schema i) eqn:Hv; [|exact H].
    apply projectUpdate_schema_bounds in Hv.
    unfold projectUpdate_resolver, prisma.project.update.
    destruct (find _ (Store.projects s)); [|exact H].
    destruct H as [Hp Ht]. split; [|exact Ht].
    simpl. intros p Hin.
    apply in_replace_first_key in Hin as [Hin | (y & _ & _ & ->)];
      [now apply Hp | exact Hv].
  - unfold projectDelete, protectedProcedure.
    destruct (ProjectDelete.schema i); [|exact H].
    unfold projectDelete_resolver, prisma.project.delete.
    destruct (find _ (Store.projects s)); [|exact H].
    destruct H as [Hp Ht]. split; [|exact Ht].
    simpl. intros p Hin. apply Hp. now apply in_remove_first in Hin.
  - exact H.
  - unfold teamCreate, protectedProcedure.
    destruct (TeamCreate.schema i) eqn:Hv; [|exact H].
    apply teamCreate_schema_bounds in Hv.
    destruct H as [Hp Ht]. split; [exact Hp|].
    simpl. intros t Hin.
    apply in_app_iff in Hin as [Hin | [<- | []]]; [now apply Ht | exact Hv].
  - unfold teamShow, protectedProcedure.
    destruct (TeamShow.schema i); [|exact H].
    unfold teamShow_resolver.
    destruct (prisma.team.findFirst _ s); exact H.
  - unfold apiList, protectedProcedure.
    destruct (ApiList.schema i); exact H.
  - unfold apiCreate, protectedProcedure.
    destruct (ApiCreate.schema _ _ i); [|exact H].
    unfold apiCreate_resolver.
    destruct (prisma.projectMember.findFirst _ s); [|exact H].
    destruct (negb _); exact H.
Qed.

(** In every store that calls of the router reach from the empty store,
    the stored projects and teams are within the bounds of the schemas:
    no call writes a row that the schema of its procedure would reject.
    So [projectShow] there returns the visibility "public" or
    "private". *)
Theorem reachable_rows_within_bounds newId ApiMethod ApiStatus s :
  reachable newId ApiMethod ApiStatus s ->
  within_bounds s
  /\ (forall user input shown,
        fst (projectShow user input s) = Return shown ->
        Project.visibility shown = "public"
        \/ Project.visibility shown = "private").
Proof.
  intros Hr.
  assert (Hb : within_bounds s).
  { induction Hr as [|user c s _ IH].
    - split; intros ? [].
    - now apply run_within_bounds. }
  split; [exact Hb|].
  intros user input shown Hs.
  destruct (proj1 (proj2 (reads_filtered_by_membership user s))
              input shown Hs) as (p & Hin & _ & -> & _).
  destruct (proj1 Hb p Hin) as (_ & _ & [Hv | Hv]);
    simpl; rewrite Hv; [left | right]; reflexivity.
Qed.

Lemma reachable_rows_within_bounds_witness :
  let s :=
    run sample_newId sample_ApiMethod sample_ApiStatus U1
      (call_projectCreate
         {| ProjectCreate.name := "Ledger";
            ProjectCreate.description := "Ledger service";
            ProjectCreate.teamId := "T1";
            ProjectCreate.visibility := "PRIVATE" |})
      Store.empty in
  within_bounds s.
Proof.
  intros s.
  apply (reachable_rows_within_bounds sample_newId sample_ApiMethod
           sample_ApiStatus s).
  apply reachable_run. apply reachable_empty.
Defined.

(** ** Reads that carry the membership filter *)


